(** * AgroMind reasoning layer: prediction ranking, narrative explanation
      and sustainability analysis.

    Shallow embedding of [backend/utils/helpers.py] and
    [backend/services/sustainability_service.py], followed by the input
    validators, the feature ranges of the configuration, the prediction and
    importance-chart services and the parser of the advisory text.

    Numbers.  The Python code computes on ints and IEEE doubles.  Here every
    numeric value is an exact rational ([Q]); comparisons, [max], [min],
    [int()] and the [.0f]/[.1f] format specifiers are written out with
    Python's semantics on exact values.  Rounding error of binary floating
    point, NaN and infinities are outside the model.  Equality of numbers is
    [Qeq] (written [==]).

    Dictionaries.  A Python dict is an association list in insertion order
    ([dict V]); [d.get(k, default)] is [dict_get].  Dicts whose key set is
    fixed by the code that builds them ({'N','P','K'} and the report dicts)
    are records. *)

From Stdlib Require Import ZArith QArith Qround Qabs Qminmax Lqa Lia Bool.
From Stdlib Require Import List String Ascii DecimalString.
From Stdlib Require Import Permutation Sorting.
Import ListNotations.

Local Open Scope string_scope.
Local Open Scope Q_scope.

(** ** Python primitives *)

Module Py.

(** [x < y] on numbers, as a boolean. *)
Definition Qltb (x y : Q) : bool := negb (Qle_bool y x).

(** [max(a, b)]: the first argument is kept unless the second is greater. *)
Definition max (a b : Q) : Q := if Qltb a b then b else a.

(** [min(a, b)]: the first argument is kept unless the second is smaller. *)
Definition min (a b : Q) : Q := if Qltb b a then b else a.

(** [a / b] raises ZeroDivisionError when [b] is zero. *)
Definition div (a b : Q) : option Q :=
  if Qeq_bool b 0 then None else Some (a / b).

(** [int(x)]: truncation toward zero. *)
Definition int (x : Q) : Z := Z.quot (Qnum x) (Zpos (Qden x)).

(** Round to the nearest integer, ties to the even one (what the [f]
    presentation type does with the exact value). *)
Definition round_half_even (q : Q) : Z :=
  let f := Qfloor q in
  match Qcompare (q - inject_Z f) (1 # 2) with
  | Lt => f
  | Gt => (f + 1)%Z
  | Eq => if Z.even f then f else (f + 1)%Z
  end.

Definition string_of_Z (z : Z) : string :=
  NilZero.string_of_int (Z.to_int z).

(** The last [d] decimal digits of [m], with leading zeros. *)
Fixpoint frac_digits (d : nat) (m : Z) : string :=
  match d with
  | O => ""
  | S d' => frac_digits d' (m / 10) ++ string_of_Z (m mod 10)
  end.

(** [f"{q:.<d>f}"]. *)
Definition format_fixed (d : nat) (q : Q) : string :=
  let scale := (10 ^ Z.of_nat d)%Z in
  let m := round_half_even (Qabs q * inject_Z scale) in
  (if Qltb q 0 then "-" else "")
  ++ string_of_Z (m / scale)
  ++ (match d with O => "" | S _ => "." ++ frac_digits d (m mod scale) end).

(** [str.lower()] on ASCII letters. *)
Definition lower_ascii (c : ascii) : ascii :=
  let n := nat_of_ascii c in
  if ((65 <=? n) && (n <=? 90))%nat then ascii_of_nat (n + 32) else c.

Fixpoint lower (s : string) : string :=
  match s with
  | EmptyString => EmptyString
  | String c s' => String (lower_ascii c) (lower s')
  end.

(** [sep.join(l)]. *)
Fixpoint join (sep : string) (l : list string) : string :=
  match l with
  | [] => ""
  | [x] => x
  | x :: xs => x ++ sep ++ join sep xs
  end.

(** Dictionaries. *)
Definition dict (V : Type) : Type := list (string * V).

Fixpoint dict_get {V : Type} (d : dict V) (k : string) (default : V) : V :=
  match d with
  | [] => default
  | (k', v) :: d' => if String.eqb k k' then v else dict_get d' k default
  end.

Definition dict_mem {V : Type} (d : dict V) (k : string) : bool :=
  existsb (fun kv => String.eqb k (fst kv)) d.

(** Error monad for code that can raise. *)
Definition bind {A B : Type} (m : option A) (f : A -> option B) : option B :=
  match m with
  | Some a => f a
  | None => None
  end.

End Py.

Notation "x <- m ;; k" := (Py.bind m (fun x => k))
  (at level 61, m at next level, right associativity).

(** ** backend/services/sustainability_service.py *)

Module SustainabilityService.

(** A dict with the keys 'N', 'P' and 'K'. *)
Record NPK : Type := mkNPK { npk_N : Q; npk_P : Q; npk_K : Q }.

(** [sum(d.values())] of such a dict. *)
Definition npk_sum (d : NPK) : Q := 0 + npk_N d + npk_P d + npk_K d.

Record DepletionReport : Type := mkDepletion {
  consumption : NPK;
  remaining : NPK;
  depletion_percent : NPK;
  severity : string
}.

Record WaterRiskReport : Type := mkWaterRisk {
  water_need : Q;
  available_water : Q;
  deficit : Q;
  surplus : Q;
  risk_level : string;
  message : string
}.

Record RotationEntry : Type := mkRotationEntry {
  reason : string;
  crops : list string;
  benefit : string
}.

Record Rotation : Type := mkRotation {
  current_crop : string;
  suggestions : list RotationEntry
}.

Record SustainabilityReport : Type := mkReport {
  crop : string;
  sustainability_score : Z;
  nutrient_depletion : DepletionReport;
  water_risk : WaterRiskReport;
  crop_rotation : Rotation;
  recommendations : list string
}.

(** Crop nutrient consumption rates (kg/ha per season). *)
Definition CROP_NPK_CONSUMPTION : Py.dict NPK := [
  ("rice", mkNPK 120 60 60);
  ("maize", mkNPK 150 75 50);
  ("chickpea", mkNPK 20 60 40);
  ("kidneybeans", mkNPK 30 50 50);
  ("pigeonpeas", mkNPK 25 50 40);
  ("mothbeans", mkNPK 30 45 45);
  ("mungbean", mkNPK 25 50 50);
  ("blackgram", mkNPK 30 50 45);
  ("lentil", mkNPK 20 55 40);
  ("pomegranate", mkNPK 100 50 100);
  ("banana", mkNPK 200 80 200);
  ("mango", mkNPK 150 100 120);
  ("grapes", mkNPK 120 80 150);
  ("watermelon", mkNPK 100 60 80);
  ("muskmelon", mkNPK 90 55 75);
  ("apple", mkNPK 130 90 110);
  ("orange", mkNPK 140 70 100);
  ("papaya", mkNPK 110 80 90);
  ("coconut", mkNPK 100 50 120);
  ("cotton", mkNPK 120 60 60);
  ("jute", mkNPK 80 40 40);
  ("coffee", mkNPK 100 50 80)
].

(** Water requirements (mm per season). *)
Definition CROP_WATER_NEEDS : Py.dict Q := [
  ("rice", 1200); ("maize", 600); ("chickpea", 400); ("kidneybeans", 500);
  ("pigeonpeas", 450); ("mothbeans", 400); ("mungbean", 350);
  ("blackgram", 400); ("lentil", 450); ("pomegranate", 800);
  ("banana", 1500); ("mango", 1000); ("grapes", 900); ("watermelon", 500);
  ("muskmelon", 450); ("apple", 800); ("orange", 900); ("papaya", 800);
  ("coconut", 1200); ("cotton", 700); ("jute", 600); ("coffee", 1000)
].

Definition default_consumption : NPK := mkNPK 100 50 50.
Definition default_water_need : Q := 600.

Definition _get_depletion_severity (n_dep p_dep k_dep : Q) : string :=
  let avg_depletion := (n_dep + p_dep + k_dep) / 3 in
  if Py.Qltb 70 avg_depletion then "severe"
  else if Py.Qltb 50 avg_depletion then "high"
  else if Py.Qltb 30 avg_depletion then "moderate"
  else "low".

Definition _calculate_nutrient_depletion (crop : string) (soil_params : Py.dict Q)
  : option DepletionReport :=
  let consumption := Py.dict_get CROP_NPK_CONSUMPTION crop default_consumption in
  let current_n := Py.dict_get soil_params "N" 50 in
  let current_p := Py.dict_get soil_params "P" 50 in
  let current_k := Py.dict_get soil_params "K" 50 in
  let remaining_n := Py.max 0 (current_n - npk_N consumption) in
  let remaining_p := Py.max 0 (current_p - npk_P consumption) in
  let remaining_k := Py.max 0 (current_k - npk_K consumption) in
  qn <- Py.div (npk_N consumption) (Py.max current_n 1) ;;
  let n_depletion := qn * 100 in
  qp <- Py.div (npk_P consumption) (Py.max current_p 1) ;;
  let p_depletion := qp * 100 in
  qk <- Py.div (npk_K consumption) (Py.max current_k 1) ;;
  let k_depletion := qk * 100 in
  Some {|
    consumption := consumption;
    remaining := mkNPK remaining_n remaining_p remaining_k;
    depletion_percent :=
      mkNPK (Py.min 100 n_depletion) (Py.min 100 p_depletion)
            (Py.min 100 k_depletion);
    severity := _get_depletion_severity n_depletion p_depletion k_depletion
  |}.

Definition _calculate_water_risk (crop : string) (rainfall : Q) : WaterRiskReport :=
  let water_need := Py.dict_get CROP_WATER_NEEDS crop default_water_need in
  let seasonal_rainfall := rainfall * 4 in
  let water_deficit := Py.max 0 (water_need - seasonal_rainfall) in
  let water_surplus := Py.max 0 (seasonal_rainfall - water_need) in
  (* (risk_level, risk_message) *)
  let risk : string * string :=
    if Py.Qltb 400 water_deficit then
      ("high", "Significant irrigation needed ("
                 ++ Py.format_fixed 0 water_deficit ++ "mm deficit)")
    else if Py.Qltb 200 water_deficit then
      ("medium", "Moderate irrigation required ("
                   ++ Py.format_fixed 0 water_deficit ++ "mm deficit)")
    else if Py.Qltb 400 water_surplus then
      ("medium", "Excess water may cause issues ("
                   ++ Py.format_fixed 0 water_surplus ++ "mm surplus)")
    else
      ("low", "Water availability is adequate") in
  {|
    water_need := water_need;
    available_water := seasonal_rainfall;
    deficit := water_deficit;
    surplus := water_surplus;
    risk_level := fst risk;
    message := snd risk
  |}.

Definition nitrogen_fixers : list string :=
  ["chickpea"; "pigeonpeas"; "lentil"; "mungbean"; "blackgram"].

Definition light_feeders : list string :=
  ["mothbeans"; "jute"; "watermelon"; "muskmelon"].

Definition good_health_entry : RotationEntry :=
  mkRotationEntry "Soil health is good"
    ["Continue with similar crops or diversify"] "Maintain soil balance".

Definition _suggest_crop_rotation (current_crop : string) (depletion : DepletionReport)
  : Rotation :=
  let suggestions : list RotationEntry := [] in
  let suggestions :=
    if Py.Qltb 60 (npk_N (depletion_percent depletion)) then
      (suggestions ++ [mkRotationEntry "High nitrogen depletion" nitrogen_fixers
                        "These crops will restore nitrogen to the soil"])%list
    else suggestions in
  let avg_depletion := npk_sum (depletion_percent depletion) / 3 in
  let suggestions :=
    if Py.Qltb 50 avg_depletion then
      (suggestions ++ [mkRotationEntry "Overall nutrient depletion" light_feeders
                        "These crops have lower nutrient requirements"])%list
    else suggestions in
  let suggestions :=
    if String.eqb (severity depletion) "severe" then
      (suggestions ++ [mkRotationEntry "Severe soil depletion"
                        ["fallow period with cover crops"]
                        "Allow soil to recover naturally"])%list
    else suggestions in
  {|
    current_crop := current_crop;
    suggestions :=
      match suggestions with
      | [] => [good_health_entry]
      | _ :: _ => suggestions
      end
  |}.

Definition _calculate_sustainability_score (depletion : DepletionReport)
    (water_risk : WaterRiskReport) (soil_params : Py.dict Q) : Z :=
  let score := 100 in
  let avg_depletion := npk_sum (depletion_percent depletion) / 3 in
  let score := score - avg_depletion * (3 # 10) in
  let score :=
    if String.eqb (risk_level water_risk) "high" then score - 20
    else if String.eqb (risk_level water_risk) "medium" then score - 10
    else score in
  let pH := Py.dict_get soil_params "pH" 7 in
  let score :=
    if Qle_bool 6 pH && Qle_bool pH (15 # 2) then score + 5 else score in
  Z.max 0 (Z.min 100 (Py.int score)).

Definition _generate_recommendations (crop : string) (depletion : DepletionReport)
    (water_risk : WaterRiskReport) (score : Z) : list string :=
  let recommendations : list string := [] in
  let recommendations :=
    if Py.Qltb 50 (npk_N (depletion_percent depletion)) then
      (recommendations
        ++ ["Apply nitrogen-rich fertilizers or compost before next planting"])%list
    else recommendations in
  let recommendations :=
    if Py.Qltb 50 (npk_P (depletion_percent depletion)) then
      (recommendations
        ++ ["Add phosphate fertilizers to restore phosphorus levels"])%list
    else recommendations in
  let recommendations :=
    if Py.Qltb 50 (npk_K (depletion_percent depletion)) then
      (recommendations ++ ["Use potash or wood ash to replenish potassium"])%list
    else recommendations in
  let recommendations :=
    if String.eqb (risk_level water_risk) "high" then
      ((recommendations ++ ["Install drip irrigation system to conserve water"])
        ++ ["Use mulching to reduce water evaporation"])%list
    else if Py.Qltb 300 (surplus water_risk) then
      (recommendations ++ ["Ensure proper drainage to prevent waterlogging"])%list
    else recommendations in
  let recommendations :=
    if (score <? 60)%Z then
      ((recommendations ++ ["Consider crop rotation to improve soil health"])
        ++ ["Add organic matter to enhance soil structure"])%list
    else recommendations in
  match recommendations with
  | [] => ["Maintain current sustainable practices"]
  | _ :: _ => recommendations
  end.

Definition analyze_soil_impact (crop : string) (soil_params : Py.dict Q)
    (duration_months : Z) : option SustainabilityReport :=
  let crop_lower := Py.lower crop in
  depletion <- _calculate_nutrient_depletion crop_lower soil_params ;;
  let water_risk :=
    _calculate_water_risk crop_lower (Py.dict_get soil_params "rainfall" 0) in
  let rotation := _suggest_crop_rotation crop_lower depletion in
  let sustainability_score :=
    _calculate_sustainability_score depletion water_risk soil_params in
  Some {|
    crop := crop;
    sustainability_score := sustainability_score;
    nutrient_depletion := depletion;
    water_risk := water_risk;
    crop_rotation := rotation;
    recommendations :=
      _generate_recommendations crop_lower depletion water_risk
        sustainability_score
  |}.

End SustainabilityService.

(** ** backend/utils/helpers.py *)

Module Helpers.

Record Prediction : Type := mkPrediction {
  crop : string;
  confidence : Q;
  confidence_percent : string
}.

Definition format_confidence_score (probability : Q) : string :=
  Py.format_fixed 1 (probability * 100) ++ "%".

(** [np.argsort(a)]: the indices of [a] in ascending order of value.  The
    model is a stable insertion sort of [0 .. len(a)-1]: among equal values
    the lower index comes first.  (NumPy's default sort finishes every short
    run with an insertion sort.) *)
Fixpoint insert_index (a : list Q) (i : nat) (sorted : list nat) : list nat :=
  match sorted with
  | [] => [i]
  | j :: rest =>
      if Qle_bool (nth i a 0) (nth j a 0) then i :: sorted
      else j :: insert_index a i rest
  end.

Definition argsort (a : list Q) : list nat :=
  fold_right (insert_index a) [] (seq 0 (List.length a)).

(** [l[start:]] for a possibly negative [start]. *)
Definition slice_from {A : Type} (start : Z) (l : list A) : list A :=
  let len := Z.of_nat (List.length l) in
  let first := if (start <? 0)%Z then Z.max 0 (len + start) else Z.min start len in
  skipn (Z.to_nat first) l.

(** The body of the [for idx in top_indices] loop; indexing raises
    IndexError out of range. *)
Fixpoint collect_predictions (probabilities : list Q) (labels : list string)
    (top_indices : list nat) (results : list Prediction)
  : option (list Prediction) :=
  match top_indices with
  | [] => Some results
  | idx :: rest =>
      label <- nth_error labels idx ;;
      p <- nth_error probabilities idx ;;
      collect_predictions probabilities labels rest
        (results ++ [mkPrediction label p (format_confidence_score p)])%list
  end.

Definition get_top_n_predictions (probabilities : list Q) (labels : list string)
    (n : Z) : option (list Prediction) :=
  let top_indices := rev (slice_from (- n) (argsort probabilities)) in
  collect_predictions probabilities labels top_indices [].

Definition create_feature_dict (N P K pH temperature humidity rainfall : Q)
  : Py.dict Q :=
  [("N", N); ("P", P); ("K", K); ("pH", pH); ("temperature", temperature);
   ("humidity", humidity); ("rainfall", rainfall)].

Definition _get_feature_explanation (feature : string) (value : Q) (crop : string)
  : string :=
  if String.eqb feature "rainfall" then
    if Py.Qltb 200 value then
      "High rainfall (" ++ Py.format_fixed 0 value
        ++ "mm) provides excellent moisture for " ++ crop ++ "."
    else if Py.Qltb 100 value then
      "Moderate rainfall (" ++ Py.format_fixed 0 value
        ++ "mm) is suitable for " ++ crop ++ "."
    else
      "Low rainfall (" ++ Py.format_fixed 0 value ++ "mm) matches " ++ crop
        ++ "'s water requirements."
  else if String.eqb feature "humidity" then
    if Py.Qltb 80 value then
      "High humidity (" ++ Py.format_fixed 0 value
        ++ "%) creates ideal conditions for " ++ crop ++ "."
    else if Py.Qltb 60 value then
      "Moderate humidity (" ++ Py.format_fixed 0 value ++ "%) supports "
        ++ crop ++ " growth."
    else
      "Low humidity (" ++ Py.format_fixed 0 value ++ "%) suits " ++ crop
        ++ "'s climate needs."
  else if String.eqb feature "temperature" then
    if Py.Qltb 30 value then
      "Warm temperature (" ++ Py.format_fixed 1 value ++ "°C) is optimal for "
        ++ crop ++ "."
    else if Py.Qltb 20 value then
      "Moderate temperature (" ++ Py.format_fixed 1 value ++ "°C) favors "
        ++ crop ++ " cultivation."
    else
      "Cool temperature (" ++ Py.format_fixed 1 value
        ++ "°C) is suitable for " ++ crop ++ "."
  else if String.eqb feature "N" then
    if Py.Qltb 80 value then
      "High nitrogen content (" ++ Py.format_fixed 0 value
        ++ ") supports vigorous " ++ crop ++ " growth."
    else if Py.Qltb 40 value then
      "Moderate nitrogen (" ++ Py.format_fixed 0 value ++ ") is adequate for "
        ++ crop ++ "."
    else
      "Low nitrogen (" ++ Py.format_fixed 0 value ++ ") matches " ++ crop
        ++ "'s nutrient needs."
  else if String.eqb feature "P" then
    if Py.Qltb 60 value then
      "High phosphorus (" ++ Py.format_fixed 0 value ++ ") promotes strong "
        ++ crop ++ " root development."
    else
      "Phosphorus level (" ++ Py.format_fixed 0 value ++ ") is suitable for "
        ++ crop ++ "."
  else if String.eqb feature "K" then
    if Py.Qltb 40 value then
      "High potassium (" ++ Py.format_fixed 0 value ++ ") enhances " ++ crop
        ++ " quality and disease resistance."
    else
      "Potassium level (" ++ Py.format_fixed 0 value ++ ") meets " ++ crop
        ++ "'s requirements."
  else if String.eqb feature "pH" then
    if Qle_bool 6 value && Qle_bool value (15 # 2) then
      "Neutral pH (" ++ Py.format_fixed 1 value ++ ") is ideal for " ++ crop
        ++ "."
    else if Py.Qltb value 6 then
      "Acidic soil (pH " ++ Py.format_fixed 1 value ++ ") suits " ++ crop
        ++ " well."
    else
      "Alkaline soil (pH " ++ Py.format_fixed 1 value
        ++ ") is appropriate for " ++ crop ++ "."
  else "".

(** [sorted(items, key=lambda x: x[1], reverse=True)]: a stable sort,
    descending by the second component; items with equal keys keep their
    original order. *)
Fixpoint insert_desc (x : string * Q) (sorted : list (string * Q))
  : list (string * Q) :=
  match sorted with
  | [] => [x]
  | y :: rest =>
      if Py.Qltb (snd x) (snd y) then y :: insert_desc x rest else x :: sorted
  end.

Definition sorted_by_importance (items : list (string * Q)) : list (string * Q) :=
  fold_right insert_desc [] items.

(** The truth value of a string: non-empty. *)
Definition truthy (s : string) : bool :=
  match s with EmptyString => false | String _ _ => true end.

(** The body of the [for feature_name, importance in sorted_features] loop. *)
Fixpoint collect_explanations (features : Py.dict Q) (crop : string)
    (sorted_features : list (string * Q)) (explanations : list string)
  : list string :=
  match sorted_features with
  | [] => explanations
  | (feature_name, importance) :: rest =>
      let value := Py.dict_get features feature_name 0 in
      let explanation := _get_feature_explanation feature_name value crop in
      collect_explanations features crop rest
        (if truthy explanation then (explanations ++ [explanation])%list
         else explanations)
  end.

Definition generate_human_readable_explanation (features : Py.dict Q)
    (crop : string) (feature_importance : Py.dict Q) : string :=
  let sorted_features := firstn 3 (sorted_by_importance feature_importance) in
  match collect_explanations features crop sorted_features [] with
  | [] => crop ++ " is suitable for the given soil and climate conditions."
  | (_ :: _) as explanations => Py.join " " explanations
  end.

End Helpers.

(** ** The specification's wording of the two composite rules

    These definitions follow the specification text, not the code; the
    theorems below compare them with the embedded functions. *)

Module Spec.




(** The qualitative buckets of the per-feature threshold ladder. *)
Inductive bucket : Type :=
| High | Moderate | Low | Warm | Cool | Adequate | Neutral | Acidic | Alkaline.

(** The ladder: which bucket a feature's value falls in; [None] for a name
    that is not one of the seven features. *)
Definition ladder (feature : string) (value : Q) : option bucket :=
  if String.eqb feature "rainfall" then
    Some (if Py.Qltb 200 value then High
          else if Py.Qltb 100 value then Moderate else Low)
  else if String.eqb feature "humidity" then
    Some (if Py.Qltb 80 value then High
          else if Py.Qltb 60 value then Moderate else Low)
  else if String.eqb feature "temperature" then
    Some (if Py.Qltb 30 value then Warm
          else if Py.Qltb 20 value then Moderate else Cool)
  else if String.eqb feature "N" then
    Some (if Py.Qltb 80 value then High
          else if Py.Qltb 40 value then Moderate else Low)
  else if String.eqb feature "P" then
    Some (if Py.Qltb 60 value then High else Adequate)
  else if String.eqb feature "K" then
    Some (if Py.Qltb 40 value then High else Adequate)
  else if String.eqb feature "pH" then
    Some (if Qle_bool 6 value && Qle_bool value (15 # 2) then Neutral
          else if Py.Qltb value 6 then Acidic else Alkaline)
  else None.

(** The canned sentence of a feature's bucket ("" where the ladder has no
    such bucket for the feature). *)
Definition template (feature : string) (b : bucket) (value : Q) (crop : string)
  : string :=
  let v0 := Py.format_fixed 0 value in
  let v1 := Py.format_fixed 1 value in
  if String.eqb feature "rainfall" then
    match b with
    | High => "High rainfall (" ++ v0 ++ "mm) provides excellent moisture for "
                ++ crop ++ "."
    | Moderate => "Moderate rainfall (" ++ v0 ++ "mm) is suitable for " ++ crop
                    ++ "."
    | Low => "Low rainfall (" ++ v0 ++ "mm) matches " ++ crop
               ++ "'s water requirements."
    | _ => ""
    end
  else if String.eqb feature "humidity" then
    match b with
    | High => "High humidity (" ++ v0 ++ "%) creates ideal conditions for "
                ++ crop ++ "."
    | Moderate => "Moderate humidity (" ++ v0 ++ "%) supports " ++ crop
                    ++ " growth."
    | Low => "Low humidity (" ++ v0 ++ "%) suits " ++ crop
               ++ "'s climate needs."
    | _ => ""
    end
  else if String.eqb feature "temperature" then
    match b with
    | Warm => "Warm temperature (" ++ v1 ++ "°C) is optimal for " ++ crop ++ "."
    | Moderate => "Moderate temperature (" ++ v1 ++ "°C) favors " ++ crop
                    ++ " cultivation."
    | Cool => "Cool temperature (" ++ v1 ++ "°C) is suitable for " ++ crop
                ++ "."
    | _ => ""
    end
  else if String.eqb feature "N" then
    match b with
    | High => "High nitrogen content (" ++ v0 ++ ") supports vigorous " ++ crop
                ++ " growth."
    | Moderate => "Moderate nitrogen (" ++ v0 ++ ") is adequate for " ++ crop
                    ++ "."
    | Low => "Low nitrogen (" ++ v0 ++ ") matches " ++ crop
               ++ "'s nutrient needs."
    | _ => ""
    end
  else if String.eqb feature "P" then
    match b with
    | High => "High phosphorus (" ++ v0 ++ ") promotes strong " ++ crop
                ++ " root development."
    | Adequate => "Phosphorus level (" ++ v0 ++ ") is suitable for " ++ crop
                    ++ "."
    | _ => ""
    end
  else if String.eqb feature "K" then
    match b with
    | High => "High potassium (" ++ v0 ++ ") enhances " ++ crop
                ++ " quality and disease resistance."
    | Adequate => "Potassium level (" ++ v0 ++ ") meets " ++ crop
                    ++ "'s requirements."
    | _ => ""
    end
  else if String.eqb feature "pH" then
    match b with
    | Neutral => "Neutral pH (" ++ v1 ++ ") is ideal for " ++ crop ++ "."
    | Acidic => "Acidic soil (pH " ++ v1 ++ ") suits " ++ crop ++ " well."
    | Alkaline => "Alkaline soil (pH " ++ v1 ++ ") is appropriate for " ++ crop
                    ++ "."
    | _ => ""
    end
  else "".

(** The phrases of a list of selected features, in the list's order: one
    per feature the ladder knows. *)
Definition phrases (features : Py.dict Q) (crop : string)
    (selected : list (string * Q)) : list string :=
  flat_map
    (fun item =>
       let value := Py.dict_get features (fst item) 0 in
       match ladder (fst item) value with
       | Some b => [template (fst item) b value crop]
       | None => []
       end)
    selected.

(** "Concatenate the chosen phrases with single spaces ...; if no feature
    yields a phrase, fall back to a generic sentence". *)
Definition narrative (features : Py.dict Q) (crop : string)
    (selected : list (string * Q)) : string :=
  match phrases features crop selected with
  | [] => crop ++ " is suitable for the given soil and climate conditions."
  | (_ :: _) as ps => Py.join " " ps
  end.

(** Importance-descending order of a list of (feature, weight) items. *)
Definition importance_descending (items : list (string * Q)) : Prop :=
  StronglySorted (fun x y => snd y <= snd x) items.

(** Non-increasing confidence of a list of predictions. *)
Definition confidence_non_increasing (results : list Helpers.Prediction) : Prop :=
  StronglySorted
    (fun p q => Helpers.confidence q <= Helpers.confidence p) results.

End Spec.

(** ** Auxiliary definitions for the statements *)

(** What both orders of clamping and truncating compute. *)
Definition trunc_clamped (x : Q) : Z :=
  if Py.Qltb x 0 then 0%Z else if Py.Qltb x 100 then Qfloor x else 100%Z.

(** [consumption / max(current, 1) * 100] with the mathematical maximum. *)
Definition uncapped_percent (consumption current : Q) : Q :=
  consumption / Qmax current 1 * 100.

(** The report [_calculate_nutrient_depletion] builds once its three
    divisions have succeeded. *)
Definition depletion_report (crop : string) (soil_params : Py.dict Q)
  : SustainabilityService.DepletionReport :=
  let c :=
    Py.dict_get SustainabilityService.CROP_NPK_CONSUMPTION crop
      SustainabilityService.default_consumption in
  let n := Py.dict_get soil_params "N" 50 in
  let p := Py.dict_get soil_params "P" 50 in
  let k := Py.dict_get soil_params "K" 50 in
  let dn := SustainabilityService.npk_N c / Py.max n 1 * 100 in
  let dp := SustainabilityService.npk_P c / Py.max p 1 * 100 in
  let dk := SustainabilityService.npk_K c / Py.max k 1 * 100 in
  SustainabilityService.mkDepletion c
    (SustainabilityService.mkNPK
       (Py.max 0 (n - SustainabilityService.npk_N c))
       (Py.max 0 (p - SustainabilityService.npk_P c))
       (Py.max 0 (k - SustainabilityService.npk_K c)))
    (SustainabilityService.mkNPK (Py.min 100 dn) (Py.min 100 dp) (Py.min 100 dk))
    (SustainabilityService._get_depletion_severity dn dp dk).

(** Order of two indices under a stable ascending sort of [a]: by value,
    and among equal values by index. *)
Definition stable_before (a : list Q) (i j : nat) : Prop :=
  nth i a 0 < nth j a 0 \/ (nth i a 0 == nth j a 0 /\ (i < j)%nat).

(** [top_indices] of [get_top_n_predictions]. *)
Definition top_indices (probabilities : list Q) (n : Z) : list nat :=
  rev (Helpers.slice_from (- n) (Helpers.argsort probabilities)).

(** The dict appended for index [idx], when [idx] is in range. *)
Definition prediction_at (probabilities : list Q) (labels : list string)
    (idx : nat) : Helpers.Prediction :=
  Helpers.mkPrediction (nth idx labels "") (nth idx probabilities 0)
    (Helpers.format_confidence_score (nth idx probabilities 0)).


(** The feature names [_get_feature_explanation] has a branch for. *)
Definition known_features : list string :=
  ["rainfall"; "humidity"; "temperature"; "N"; "P"; "K"; "pH"].

(** No string occurs twice in the list. *)
Fixpoint distinct_strings (l : list string) : bool :=
  match l with
  | [] => true
  | x :: rest => negb (existsb (String.eqb x) rest) && distinct_strings rest
  end.

(** ** backend/config.py (the part the validators read) *)

Module Config.

(** A Python number: an int or a float. *)
Inductive number : Type :=
| Int (z : Z)
| Float (q : Q).

Definition to_Q (n : number) : Q :=
  match n with
  | Int z => inject_Z z
  | Float q => q
  end.

(** Feature ranges for validation: (min, max) per feature. *)
Definition FEATURE_RANGES : Py.dict (number * number) := [
  ("N", (Int 0, Int 140));
  ("P", (Int 5, Int 145));
  ("K", (Int 5, Int 205));
  ("pH", (Float (7 # 2), Float (19 # 2)));
  ("temperature", (Int 8, Int 45));
  ("humidity", (Int 14, Int 100));
  ("rainfall", (Int 20, Int 300))
].

End Config.

(** ** backend/utils/validators.py

    The request data is a JSON object: its values are arbitrary Python
    objects ([value]).  Two builtins are parameters of the model: [float()]
    on a string ([float_of_str], [None] for ValueError) and the printed form
    of a float ([str_of_float]). *)

Module Validators.

Inductive value : Type :=
| VNone
| VBool (b : bool)
| VNum (n : Config.number)
| VStr (s : string)
| VOther (repr : string).   (* a list or a dict, with its printed form *)

(** [data[key]]: raises KeyError on a missing key. *)
Fixpoint lookup {V : Type} (d : Py.dict V) (k : string) : option V :=
  match d with
  | [] => None
  | (k', v) :: d' => if String.eqb k k' then Some v else lookup d' k
  end.

Definition required_fields : list string :=
  ["N"; "P"; "K"; "pH"; "temperature"; "humidity"; "rainfall"].

(** The outcome of [float(v)]. *)
Inductive conversion : Type :=
| Converted (x : Q)
| Rejected
| Overflow.

(** The least magnitude of an int that [float()] refuses: the doubles
    reach up to 2^1024 - 2^971 and rounding carries half a unit further. *)
Definition int_overflow_bound : Z := (2 ^ 1024 - 2 ^ 970)%Z.

Section Builtins.

Variable float_of_str : string -> option Q.
Variable str_of_float : Q -> string.

(** [float(v)].  [Rejected] is the ValueError or TypeError that both
    callers catch; [Overflow] is the OverflowError of an int too large for
    a double, which they do not catch. *)
Definition float (v : value) : conversion :=
  match v with
  | VNone => Rejected
  | VBool b => Converted (if b then 1 else 0)
  | VNum (Config.Int z) =>
      if (Z.abs z <? int_overflow_bound)%Z then Converted (inject_Z z)
      else Overflow
  | VNum (Config.Float q) => Converted q
  | VStr s =>
      match float_of_str s with
      | Some x => Converted x
      | None => Rejected
      end
  | VOther _ => Rejected
  end.

Definition str_of_number (n : Config.number) : string :=
  match n with
  | Config.Int z => Py.string_of_Z z
  | Config.Float q => str_of_float q
  end.

(** [str(v)], as an f-string prints it. *)
Definition str (v : value) : string :=
  match v with
  | VNone => "None"
  | VBool b => if b then "True" else "False"
  | VNum n => str_of_number n
  | VStr s => s
  | VOther repr => repr
  end.

(** The [for field in required_fields] loop, returning at the first
    offending field. *)
Fixpoint check_fields (data : Py.dict value) (fields : list string)
  : option (bool * string) :=
  match fields with
  | [] => Some (true, "")
  | field :: rest =>
      value <- lookup data field ;;
      match float value with
      | Overflow => None
      | Rejected =>
          Some (false,
                "Field '" ++ field ++ "' must be a number, got: " ++ str value)
      | Converted x =>
          if Py.dict_mem Config.FEATURE_RANGES field then
            range <- lookup Config.FEATURE_RANGES field ;;
            let (min_val, max_val) := range in
            if negb (Qle_bool (Config.to_Q min_val) x
                     && Qle_bool x (Config.to_Q max_val)) then
              Some (false,
                    "Field '" ++ field ++ "' must be between "
                      ++ str_of_number min_val ++ " and "
                      ++ str_of_number max_val ++ ", got: "
                      ++ str_of_float x)
            else check_fields data rest
          else check_fields data rest
      end
  end.

Definition validate_soil_climate_input (data : Py.dict value)
  : option (bool * string) :=
  let missing_fields :=
    filter (fun field => negb (Py.dict_mem data field)) required_fields in
  match missing_fields with
  | _ :: _ =>
      Some (false, "Missing required fields: " ++ Py.join ", " missing_fields)
  | [] => check_fields data required_fields
  end.

(** The [for key, value in data.items()] loop; [None] when [float()]
    raises the uncaught OverflowError. *)
Fixpoint sanitize_input (data : Py.dict value) : option (Py.dict value) :=
  match data with
  | [] => Some []
  | (key, value) :: rest =>
      match float value with
      | Overflow => None
      | Converted x =>
          sanitized <- sanitize_input rest ;;
          Some ((key, VNum (Config.Float x)) :: sanitized)
      | Rejected =>
          sanitized <- sanitize_input rest ;;
          Some ((key, value) :: sanitized)
      end
  end.

End Builtins.

Definition validate_crop_name (crop : string) (valid_crops : list string)
  : bool * string :=
  if negb (Helpers.truthy crop) then (false, "Crop name is required")
  else if negb (existsb (String.eqb crop) valid_crops) then
    (false,
     "Unknown crop: " ++ crop ++ ". Valid crops: "
       ++ Py.join ", " (firstn 10 valid_crops) ++ "...")
  else (true, "").

End Validators.

(** ** backend/services/ml_service.py

    The trained classifier and its label encoder are data of the service:
    [predict_proba] gives the class probabilities of one sample. *)

Module MLService.

Record t : Type := mkService {
  predict_proba : list Q -> list Q;
  classes_ : list string;
  feature_names : list string;
  feature_importances_ : list Q
}.

(** [d[k] = v]: overwrite in place, or append a new key. *)
Fixpoint dict_set {V : Type} (d : Py.dict V) (k : string) (v : V) : Py.dict V :=
  match d with
  | [] => [(k, v)]
  | (k', v') :: d' =>
      if String.eqb k k' then (k', v) :: d' else (k', v') :: dict_set d' k v
  end.

Definition predict_top_crops (self : t) (features : Py.dict Q) (n : Z)
  : option (list Helpers.Prediction) :=
  N <- Validators.lookup features "N" ;;
  P <- Validators.lookup features "P" ;;
  K <- Validators.lookup features "K" ;;
  pH <- Validators.lookup features "pH" ;;
  temperature <- Validators.lookup features "temperature" ;;
  humidity <- Validators.lookup features "humidity" ;;
  rainfall <- Validators.lookup features "rainfall" ;;
  let feature_array := [N; P; K; pH; temperature; humidity; rainfall] in
  let probabilities := predict_proba self feature_array in
  let crop_labels := classes_ self in
  Helpers.get_top_n_predictions probabilities crop_labels n.

(** [{feature: float(score) for feature, score in zip(names, scores)}]. *)
Definition get_feature_importance (self : t) : Py.dict Q :=
  fold_left (fun d item => dict_set d (fst item) (snd item))
    (combine (feature_names self) (feature_importances_ self)) [].

Definition get_all_crops (self : t) : list string := classes_ self.

End MLService.

(** ** backend/services/explainer_service.py *)

Module ExplainerService.

Record ChartRow : Type := mkChartRow {
  feature : string;
  importance : Q;
  importance_percent : string
}.

Definition _prepare_importance_chart (feature_importance : Py.dict Q)
  : list ChartRow :=
  let sorted_features := Helpers.sorted_by_importance feature_importance in
  map (fun item =>
         let (feature, importance) := (item : string * Q) in
         mkChartRow feature importance
           (Py.format_fixed 1 (importance * 100) ++ "%"))
      sorted_features.

Record GlobalImportance : Type := mkGlobalImportance {
  feature_importance : Py.dict Q;
  chart_data : list ChartRow
}.

Definition get_global_feature_importance (ml_service : MLService.t)
  : GlobalImportance :=
  let feature_importance := MLService.get_feature_importance ml_service in
  let chart_data := _prepare_importance_chart feature_importance in
  mkGlobalImportance feature_importance chart_data.

End ExplainerService.

(** ** backend/services/ai_agronomist.py: [_parse_response]

    Strings are byte strings: whitespace and letter case are the ASCII
    ones, and the bullet character is its three UTF-8 bytes. *)

Module AIAgronomist.

(** The ASCII characters [str.isspace] accepts. *)
Definition is_space (c : ascii) : bool :=
  let n := nat_of_ascii c in
  ((9 <=? n) && (n <=? 13) || (28 <=? n) && (n <=? 32))%nat.

Fixpoint lstrip (s : string) : string :=
  match s with
  | EmptyString => EmptyString
  | String c s' => if is_space c then lstrip s' else s
  end.

Fixpoint rstrip (s : string) : string :=
  match s with
  | EmptyString => EmptyString
  | String c s' =>
      match rstrip s' with
      | EmptyString => if is_space c then EmptyString else String c EmptyString
      | String _ _ as rest => String c rest
      end
  end.

(** [s.strip()]. *)
Definition strip (s : string) : string := rstrip (lstrip s).

(** [s.split(sep)] for a one-character separator. *)
Fixpoint split_on (sep : ascii) (s : string) : list string :=
  match s with
  | EmptyString => [EmptyString]
  | String c s' =>
      if Ascii.eqb c sep then EmptyString :: split_on sep s'
      else
        match split_on sep s' with
        | [] => [String c EmptyString]
        | w :: ws => String c w :: ws
        end
  end.

(** [s.split()]: the maximal runs of non-whitespace characters; [word] is
    the run being read. *)
Fixpoint split_ws (word : string) (s : string) : list string :=
  match s with
  | EmptyString => if Helpers.truthy word then [word] else []
  | String c s' =>
      if is_space c then
        if Helpers.truthy word then word :: split_ws EmptyString s'
        else split_ws EmptyString s'
      else split_ws (word ++ String c EmptyString) s'
  end.

Definition split (s : string) : list string := split_ws EmptyString s.

(** [sub in s]. *)
Fixpoint contains (sub s : string) : bool :=
  String.prefix sub s
  || match s with
     | EmptyString => false
     | String _ s' => contains sub s'
     end.

(** [s.split(sep, 1)[1]], for [s] containing [sep]. *)
Fixpoint after_first (sep : ascii) (s : string) : string :=
  match s with
  | EmptyString => EmptyString
  | String c s' => if Ascii.eqb c sep then s' else after_first sep s'
  end.

Definition bullet_char (c : ascii) : bool :=
  existsb (Ascii.eqb c) (list_ascii_of_string "*-0123456789. ").

(** [s.lstrip('*-•0123456789. ')]. *)
Fixpoint lstrip_bullets (s : string) : string :=
  match s with
  | EmptyString => EmptyString
  | String c s' =>
      if bullet_char c then lstrip_bullets s'
      else
        match s with
        | String "226" (String "128" (String "162" s3)) => lstrip_bullets s3
        | _ => s
        end
  end.

(** [any(keyword in line for keyword in keywords)]. *)
Definition any_in (keywords : list string) (line : string) : bool :=
  existsb (fun keyword => contains keyword line) keywords.

(** [s.startswith(prefixes)] for a tuple of prefixes. *)
Definition startswith_any (prefixes : list string) (s : string) : bool :=
  existsb (fun p => String.prefix p s) prefixes.

(** The keys of the sections dict other than 'full_text'. *)
Inductive key : Type :=
| k_suitability | k_sowing_season | k_fertilizer | k_disease_risks
| k_yield_tips.

Record Sections : Type := mkSections {
  suitability : string;
  sowing_season : string;
  fertilizer : string;
  disease_risks : string;
  yield_tips : string;
  full_text : string
}.


(** [sections[k] = v]. *)
Definition set (sections : Sections) (k : key) (v : string) : Sections :=
  match k with
  | k_suitability =>
      mkSections v (sowing_season sections) (fertilizer sections)
        (disease_risks sections) (yield_tips sections) (full_text sections)
  | k_sowing_season =>
      mkSections (suitability sections) v (fertilizer sections)
        (disease_risks sections) (yield_tips sections) (full_text sections)
  | k_fertilizer =>
      mkSections (suitability sections) (sowing_season sections) v
        (disease_risks sections) (yield_tips sections) (full_text sections)
  | k_disease_risks =>
      mkSections (suitability sections) (sowing_season sections)
        (fertilizer sections) v (yield_tips sections) (full_text sections)
  | k_yield_tips =>
      mkSections (suitability sections) (sowing_season sections)
        (fertilizer sections) (disease_risks sections) v (full_text sections)
  end.

(** The variables the loop over the lines updates. *)
Record LoopState : Type := mkState {
  sections : Sections;
  current_section : option key;
  section_content : list string
}.

(** [if current_section and section_content:
       sections[current_section] = ' '.join(section_content)]. *)
Definition save_section (st : LoopState) : Sections :=
  match current_section st, section_content st with
  | Some current, _ :: _ =>
      set (sections st) current (Py.join " " (section_content st))
  | _, _ => sections st
  end.

(** The body shared by the five header branches. *)
Definition start_section (k : key) (st : LoopState) (line_stripped : string)
  : LoopState :=
  let sections := save_section st in
  let section_content : list string := [] in
  let section_content :=
    if contains ":" line_stripped then
      let content := strip (after_first ":" line_stripped) in
      if Helpers.truthy content && negb (String.prefix "*" content) then
        (section_content ++ [content])%list
      else section_content
    else section_content in
  mkState sections (Some k) section_content.

Definition bullet_prefixes : list string :=
  ["*"; "-"; "•"; "1."; "2."; "3."; "4."; "5."].

(** One iteration of [for line in lines]. *)
Definition step (st : LoopState) (line : string) : LoopState :=
  let line_stripped := strip line in
  if negb (Helpers.truthy line_stripped) then st
  else
    let line_lower := Py.lower line_stripped in
    if any_in ["suitability"; "suitable for"] line_lower then
      start_section k_suitability st line_stripped
    else if any_in ["sowing"; "planting"; "season"] line_lower then
      start_section k_sowing_season st line_stripped
    else if any_in ["fertilizer"; "npk"; "nutrient"] line_lower then
      start_section k_fertilizer st line_stripped
    else if any_in ["disease"; "pest"; "risk"] line_lower then
      start_section k_disease_risks st line_stripped
    else if any_in ["yield"; "optimization"; "tips"; "maximize"] line_lower then
      start_section k_yield_tips st line_stripped
    else
      match current_section st with
      | Some _ =>
          if startswith_any bullet_prefixes line_stripped then
            let content := strip (lstrip_bullets line_stripped) in
            if Helpers.truthy content then
              mkState (sections st) (current_section st)
                (section_content st ++ [content])%list
            else st
          else if negb (String.prefix "#" line_stripped) then
            mkState (sections st) (current_section st)
              (section_content st ++ [line_stripped])%list
          else st
      | None => st
      end.

(** The clean-up of one section: strip, then collapse runs of whitespace. *)
Definition clean (s : string) : string := Py.join " " (split (strip s)).

Definition _parse_response (response_text : string) : Sections :=
  let sections :=
    mkSections EmptyString EmptyString EmptyString EmptyString EmptyString
      response_text in
  let lines := split_on "010" response_text in
  let st := fold_left step lines (mkState sections None []) in
  let sections := save_section st in
  mkSections (clean (suitability sections)) (clean (sowing_season sections))
    (clean (fertilizer sections)) (clean (disease_risks sections))
    (clean (yield_tips sections)) (full_text sections).

End AIAgronomist.

(** What the validator requires of one field: a value [float()] accepts,
    within the field's configured range. *)
Definition field_ok (float_of_str : string -> option Q)
    (data : Py.dict Validators.value) (field : string) : Prop :=
  exists v x lo hi,
    Validators.lookup data field = Some v /\
    Validators.float float_of_str v = Validators.Converted x /\
    Validators.lookup Config.FEATURE_RANGES field = Some (lo, hi) /\
    Config.to_Q lo <= x <= Config.to_Q hi.

(** A word: a non-empty string without whitespace. *)
Definition is_word (w : string) : Prop :=
  Helpers.truthy w = true
  /\ Forall (fun c => AIAgronomist.is_space c = false) (list_ascii_of_string w).

(** A string in normal form: words separated by single spaces. *)
Definition single_spaced (s : string) : Prop :=
  exists words, s = Py.join " " words /\ Forall is_word words.



(** An int too large for [float()]. *)
Definition huge_int (v : Validators.value) : Prop :=
  exists z,
    v = Validators.VNum (Config.Int z)
    /\ (Validators.int_overflow_bound <= Z.abs z)%Z.

(** * Properties *)

(** ** Facts about the Python primitives *)

Section PyFacts.

Lemma Qltb_true_iff x y : Py.Qltb x y = true <-> x < y.
Proof.
  unfold Py.Qltb. rewrite negb_true_iff, <- not_true_iff_false, Qle_bool_iff.
  split; [apply Qnot_le_lt | apply Qlt_not_le].
Qed.

Lemma Qltb_false_iff x y : Py.Qltb x y = false <-> y <= x.
Proof.
  unfold Py.Qltb. rewrite negb_false_iff. apply Qle_bool_iff.
Qed.

Lemma Qltb_spec x y : reflect (x < y) (Py.Qltb x y).
Proof.
  destruct (Py.Qltb x y) eqn:E; constructor.
  - now apply Qltb_true_iff.
  - apply Qltb_false_iff in E. now apply Qle_not_lt.
Qed.

Lemma Qltb_comp x x' y y' : x == x' -> y == y' -> Py.Qltb x y = Py.Qltb x' y'.
Proof.
  intros Hx Hy. unfold Py.Qltb. now rewrite Hx, Hy.
Qed.

Lemma py_max_Qmax a b : Py.max a b == Qmax a b.
Proof.
  unfold Py.max. destruct (Qltb_spec a b) as [H | H].
  - symmetry. apply Q.max_r. now apply Qlt_le_weak.
  - symmetry. apply Q.max_l. now apply Qnot_lt_le.
Qed.


Lemma py_max_ge_r a b : b <= Py.max a b.
Proof.
  rewrite py_max_Qmax. apply Q.le_max_r.
Qed.

Lemma py_div_some a b : ~ b == 0 -> Py.div a b = Some (a / b).
Proof.
  intros H. unfold Py.div. destruct (Qeq_bool b 0) eqn:E; [|reflexivity].
  apply Qeq_bool_iff in E. contradiction.
Qed.


Lemma dict_get_Forall {V : Type} (P : V -> Prop) (d : Py.dict V) k default :
  Forall P (map snd d) -> P default -> P (Py.dict_get d k default).
Proof.
  induction d as [|[k' v] d IH]; simpl; intros HF Hd; [assumption|].
  inversion HF; subst. destruct (String.eqb k k'); auto.
Qed.

End PyFacts.

(** ** Truncation and clamping of the score *)

Section Truncation.

Lemma trunc_clamped_comp x y : x == y -> trunc_clamped x = trunc_clamped y.
Proof.
  intros H. unfold trunc_clamped.
  rewrite (Qltb_comp x y 0 0 H (Qeq_refl 0)).
  rewrite (Qltb_comp x y 100 100 H (Qeq_refl 100)).
  now rewrite H.
Qed.

Lemma int_nonneg x : 0 <= x -> Py.int x = Qfloor x.
Proof.
  destruct x as [n d]. unfold Qle, Py.int, Qfloor. simpl. intros H.
  apply Z.quot_div_nonneg; lia.
Qed.

Lemma int_neg x : x < 0 -> (Py.int x <= 0)%Z.
Proof.
  destruct x as [n d]. unfold Qlt, Py.int. simpl. intros H.
  replace n with (- (- n))%Z by lia. rewrite Z.quot_opp_l by lia.
  assert (0 <= Z.quot (- n) (Z.pos d))%Z by (apply Z.quot_pos; lia). lia.
Qed.

Lemma floor_range x : 0 <= x -> x < 100 -> (0 <= Qfloor x < 100)%Z.
Proof.
  destruct x as [n d]. unfold Qle, Qlt, Qfloor. simpl. intros H0 H1. split.
  - apply Z.div_pos; lia.
  - apply Z.div_lt_upper_bound; lia.
Qed.

Lemma floor_ge_100 x : 100 <= x -> (100 <= Qfloor x)%Z.
Proof.
  destruct x as [n d]. unfold Qle, Qfloor. simpl. intros H.
  apply Z.div_le_lower_bound; lia.
Qed.

(** The code: truncate, then clamp. *)
Lemma int_then_clamp x :
  Z.max 0 (Z.min 100 (Py.int x)) = trunc_clamped x.
Proof.
  unfold trunc_clamped.
  destruct (Qltb_spec x 0) as [Hneg | Hnn].
  - pose proof (int_neg x Hneg). lia.
  - apply Qnot_lt_le in Hnn. rewrite (int_nonneg x Hnn).
    destruct (Qltb_spec x 100) as [Hlt | Hge].
    + pose proof (floor_range x Hnn Hlt). lia.
    + apply Qnot_lt_le in Hge. pose proof (floor_ge_100 x Hge). lia.
Qed.


End Truncation.

(** ** Sustainability analysis *)

Section Sustainability.

Import SustainabilityService.

Lemma consumption_nonneg crop :
  let c := Py.dict_get CROP_NPK_CONSUMPTION crop default_consumption in
  0 <= npk_N c /\ 0 <= npk_P c /\ 0 <= npk_K c.
Proof.
  apply (dict_get_Forall
           (fun c => 0 <= npk_N c /\ 0 <= npk_P c /\ 0 <= npk_K c)).
  - unfold CROP_NPK_CONSUMPTION. simpl.
    repeat constructor; simpl; unfold Qle; simpl; lia.
  - unfold default_consumption. simpl. repeat split; unfold Qle; simpl; lia.
Qed.

(** The guarded divisor is never zero. *)
Lemma guarded_divisor_pos current : 1 <= Py.max current 1.
Proof. apply py_max_ge_r. Qed.

Lemma guarded_div c current :
  Py.div c (Py.max current 1) = Some (c / Py.max current 1).
Proof.
  apply py_div_some. pose proof (guarded_divisor_pos current). lra.
Qed.

Lemma uncapped_nonneg c current : 0 <= c -> 0 <= uncapped_percent c current.
Proof.
  intros Hc. unfold uncapped_percent.
  pose proof (Q.le_max_r current 1) as Hd.
  assert (0 <= c / Qmax current 1).
  { apply Qle_shift_div_l; lra. }
  lra.
Qed.

Lemma code_percent_uncapped c current :
  c / Py.max current 1 * 100 == uncapped_percent c current.
Proof.
  unfold uncapped_percent. now rewrite py_max_Qmax.
Qed.

Lemma capped_range x : 0 <= x -> 0 <= Py.min 100 x <= 100.
Proof.
  intros Hx. unfold Py.min. destruct (Qltb_spec x 100); split; lra.
Qed.


(** [_calculate_nutrient_depletion] never raises. *)
Lemma depletion_total crop soil_params :
  _calculate_nutrient_depletion crop soil_params
  = Some (depletion_report crop soil_params).
Proof.
  unfold _calculate_nutrient_depletion. rewrite !guarded_div. reflexivity.
Qed.

(** [analyze_soil_impact] never raises; its report unfolded. *)
Lemma analyze_total crop soil_params duration_months :
  let depletion := depletion_report (Py.lower crop) soil_params in
  let water :=
    _calculate_water_risk (Py.lower crop)
      (Py.dict_get soil_params "rainfall" 0) in
  let score := _calculate_sustainability_score depletion water soil_params in
  analyze_soil_impact crop soil_params duration_months =
  Some {|
    crop := crop;
    sustainability_score := score;
    nutrient_depletion := depletion;
    water_risk := water;
    crop_rotation := _suggest_crop_rotation (Py.lower crop) depletion;
    recommendations :=
      _generate_recommendations (Py.lower crop) depletion water score
  |}.
Proof.
  unfold analyze_soil_impact. rewrite depletion_total. reflexivity.
Qed.

End Sustainability.

Section SustainabilityClaims.

Import SustainabilityService.





End SustainabilityClaims.

Section ReportClaims.

Import SustainabilityService.

(** C6.  For every crop, every soil_params mapping and any two values of
    duration_months, [analyze_soil_impact] returns the same report: the
    whole analysis, with its times-4 seasonal rainfall, is independent of
    duration_months. *)
Theorem analyze_ignores_duration crop soil_params (d1 d2 : Z) :
  analyze_soil_impact crop soil_params d1
  = analyze_soil_impact crop soil_params d2
  /\ exists r,
       analyze_soil_impact crop soil_params d1 = Some r /\
       available_water (water_risk r)
       = Py.dict_get soil_params "rainfall" 0 * 4.
Proof.
  split; [reflexivity|].
  eexists. split; [apply analyze_total|]. reflexivity.
Qed.



Lemma rotation_nonempty cur depletion :
  let dp := depletion_percent depletion in
  suggestions (_suggest_crop_rotation cur depletion) <> [] /\
  ((60 < npk_N dp \/ 50 < npk_sum dp / 3 \/ severity depletion = "severe")
   \/ suggestions (_suggest_crop_rotation cur depletion) = [good_health_entry]).
Proof.
  intros dp. unfold _suggest_crop_rotation. fold dp. simpl.
  destruct (Qltb_spec 60 (npk_N dp)) as [H1 | H1];
    destruct (Qltb_spec 50 (npk_sum dp / 3)) as [H2 | H2];
    destruct (String.eqb_spec (severity depletion) "severe") as [H3 | H3];
    simpl; (split; [discriminate|]); auto.
Qed.

Lemma recommendations_nonempty cur depletion water score :
  let dp := depletion_percent depletion in
  let recs := _generate_recommendations cur depletion water score in
  recs <> [] /\
  ((50 < npk_N dp \/ 50 < npk_P dp \/ 50 < npk_K dp
    \/ risk_level water = "high" \/ 300 < surplus water \/ (score < 60)%Z)
   \/ recs = ["Maintain current sustainable practices"]).
Proof.
  intros dp recs. unfold recs, _generate_recommendations. fold dp.
  destruct (Qltb_spec 50 (npk_N dp)) as [H1 | H1];
    destruct (Qltb_spec 50 (npk_P dp)) as [H2 | H2];
    destruct (Qltb_spec 50 (npk_K dp)) as [H3 | H3];
    destruct (String.eqb_spec (risk_level water) "high") as [H4 | H4];
    destruct (Qltb_spec 300 (surplus water)) as [H5 | H5];
    destruct (Z.ltb_spec score 60) as [H6 | H6];
    simpl; (split; [discriminate|]); auto 10.
Qed.

(** C8.  For every crop and soil_params, the report of
    [analyze_soil_impact] has a non-empty crop_rotation.suggestions list and
    a non-empty recommendations list: unless some rotation rule triggers the
    suggestions are the single 'Soil health is good' entry, and unless some
    recommendation condition matches the recommendations are the single
    'Maintain current sustainable practices' entry. *)
Theorem report_lists_nonempty crop soil_params duration_months :
  exists r,
    analyze_soil_impact crop soil_params duration_months = Some r /\
    let dp := depletion_percent (nutrient_depletion r) in
    suggestions (crop_rotation r) <> [] /\
    recommendations r <> [] /\
    ((60 < npk_N dp \/ 50 < npk_sum dp / 3
      \/ severity (nutrient_depletion r) = "severe")
     \/ suggestions (crop_rotation r) = [good_health_entry]) /\
    ((50 < npk_N dp \/ 50 < npk_P dp \/ 50 < npk_K dp
      \/ risk_level (water_risk r) = "high" \/ 300 < surplus (water_risk r)
      \/ (sustainability_score r < 60)%Z)
     \/ recommendations r = ["Maintain current sustainable practices"]).
Proof.
  eexists. split; [apply analyze_total|]. cbv zeta.
  cbn [crop_rotation recommendations nutrient_depletion water_risk
       sustainability_score].
  set (dep := depletion_report (Py.lower crop) soil_params).
  set (water := _calculate_water_risk (Py.lower crop)
                  (Py.dict_get soil_params "rainfall" 0)).
  pose proof (rotation_nonempty (Py.lower crop) dep) as (R1 & R2).
  pose proof (recommendations_nonempty (Py.lower crop) dep water
    (_calculate_sustainability_score dep water soil_params)) as (G1 & G2).
  repeat split; assumption.
Qed.

End ReportClaims.

(** ** Sorted lists *)

Section SortedLists.

Context {A : Type}.

Lemma StronglySorted_app_intro (R : A -> A -> Prop) (l1 l2 : list A) :
  StronglySorted R l1 -> StronglySorted R l2 ->
  (forall x y, In x l1 -> In y l2 -> R x y) ->
  StronglySorted R (l1 ++ l2)%list.
Proof.
  induction l1 as [|a l1 IH]; simpl; intros H1 H2 H12; [assumption|].
  inversion H1 as [|? ? Hs Hf]; subst. constructor.
  - apply IH; auto.
  - apply Forall_app. split; [assumption|].
    apply Forall_forall. intros y Hy. apply H12; auto.
Qed.

Lemma StronglySorted_skipn (R : A -> A -> Prop) (k : nat) (l : list A) :
  StronglySorted R l -> StronglySorted R (skipn k l).
Proof.
  revert l. induction k as [|k IH]; intros l H; [assumption|].
  destruct l as [|a l]; [constructor|]. simpl. apply IH.
  now inversion H.
Qed.

Lemma StronglySorted_rev (R : A -> A -> Prop) (l : list A) :
  StronglySorted R l -> StronglySorted (fun x y => R y x) (rev l).
Proof.
  induction 1 as [|a l Hs IH Hf]; simpl; [constructor|].
  apply StronglySorted_app_intro; [assumption | repeat constructor |].
  intros x y Hx [<- | []]. apply in_rev in Hx.
  rewrite Forall_forall in Hf. now apply Hf.
Qed.


Lemma StronglySorted_weaken (R R' : A -> A -> Prop) (l : list A) :
  (forall x y, R x y -> R' x y) -> StronglySorted R l -> StronglySorted R' l.
Proof.
  intros HR. induction 1 as [|a l Hs IH Hf]; constructor; auto.
  eapply Forall_impl; [|exact Hf]. intros y Hy. now apply HR.
Qed.

End SortedLists.

Lemma StronglySorted_map {A B : Type} (R : B -> B -> Prop) (f : A -> B) l :
  StronglySorted (fun x y => R (f x) (f y)) l -> StronglySorted R (map f l).
Proof.
  induction 1 as [|a l Hs IH Hf]; simpl; constructor; auto.
  apply Forall_map. assumption.
Qed.

(** ** [np.argsort] *)

Section Argsort.

Variable a : list Q.

Lemma insert_index_perm i s :
  Permutation (Helpers.insert_index a i s) (i :: s).
Proof.
  induction s as [|j s IH]; simpl; [reflexivity|].
  destruct (Qle_bool (nth i a 0) (nth j a 0)); [reflexivity|].
  rewrite IH. apply perm_swap.
Qed.

Lemma insert_index_sorted i s :
  StronglySorted (stable_before a) s ->
  Forall (fun j => (i < j)%nat) s ->
  StronglySorted (stable_before a) (Helpers.insert_index a i s).
Proof.
  induction 1 as [|j s Hs IH Hf]; intros Hi; simpl.
  - repeat constructor.
  - inversion Hi as [|? ? Hij Hi']; subst.
    destruct (Qle_bool (nth i a 0) (nth j a 0)) eqn:E.
    + apply Qle_bool_iff in E. constructor; [now constructor|].
      constructor.
      * unfold stable_before.
        destruct (Qlt_le_dec (nth i a 0) (nth j a 0)) as [Hlt | Hge];
          [left; assumption | right; split; [lra | assumption]].
      * rewrite Forall_forall in *. intros x Hx.
        specialize (Hf x Hx). specialize (Hi' x Hx).
        unfold stable_before in *.
        destruct Hf as [Hlt | [Heq _]].
        -- left. lra.
        -- destruct (Qlt_le_dec (nth i a 0) (nth x a 0)) as [Hl | Hg];
             [left; assumption | right; split; [lra | assumption]].
    + assert (Hlt : nth j a 0 < nth i a 0).
      { apply Qnot_le_lt. intros H. apply Qle_bool_iff in H. congruence. }
      constructor; [now apply IH|].
      eapply Permutation_Forall;
        [symmetry; apply insert_index_perm|].
      constructor; [left; assumption | assumption].
Qed.

Lemma insertion_sorted (l : list nat) :
  StronglySorted lt l ->
  Permutation (fold_right (Helpers.insert_index a) [] l) l
  /\ StronglySorted (stable_before a) (fold_right (Helpers.insert_index a) [] l).
Proof.
  induction 1 as [|i l Hs IH Hf]; simpl; [split; constructor|].
  destruct IH as [IHp IHs]. split.
  - rewrite insert_index_perm. now constructor.
  - apply insert_index_sorted; [assumption|].
    eapply Permutation_Forall; [symmetry; exact IHp | exact Hf].
Qed.

Lemma seq_sorted start len : StronglySorted lt (seq start len).
Proof.
  revert start. induction len as [|len IH]; intros start; simpl; constructor.
  - apply IH.
  - apply Forall_forall. intros x Hx. apply in_seq in Hx. lia.
Qed.

Lemma argsort_perm :
  Permutation (Helpers.argsort a) (seq 0 (List.length a)).
Proof. apply insertion_sorted, seq_sorted. Qed.

Lemma argsort_sorted : StronglySorted (stable_before a) (Helpers.argsort a).
Proof. apply insertion_sorted, seq_sorted. Qed.

Lemma argsort_length : List.length (Helpers.argsort a) = List.length a.
Proof.
  rewrite (Permutation_length argsort_perm). apply length_seq.
Qed.

End Argsort.

(** ** Prediction ranking *)

Section TopIndices.

Import Helpers.

Variable probabilities : list Q.

Lemma slice_from_last {A : Type} (n : Z) (l : list A) :
  (1 <= n <= Z.of_nat (List.length l))%Z ->
  slice_from (- n) l = skipn (List.length l - Z.to_nat n) l.
Proof.
  intros Hn. unfold slice_from.
  destruct (Z.ltb_spec (- n) 0) as [_ | H]; [|lia].
  f_equal. lia.
Qed.

Lemma slice_from_zero {A : Type} (l : list A) : slice_from (- 0) l = l.
Proof.
  unfold slice_from. simpl. rewrite Z.min_l by lia. reflexivity.
Qed.

Lemma slice_from_is_skipn {A : Type} (start : Z) (l : list A) :
  exists k, slice_from start l = skipn k l.
Proof. unfold slice_from. eexists. reflexivity. Qed.

Lemma top_indices_length n :
  (1 <= n <= Z.of_nat (List.length probabilities))%Z ->
  Z.of_nat (List.length (top_indices probabilities n)) = n.
Proof.
  intros Hn. unfold top_indices.
  rewrite length_rev, slice_from_last by (rewrite argsort_length; lia).
  rewrite length_skipn, argsort_length. lia.
Qed.

Lemma top_indices_zero :
  top_indices probabilities 0 = rev (argsort probabilities).
Proof.
  unfold top_indices. now rewrite slice_from_zero.
Qed.

Lemma top_indices_sorted n :
  StronglySorted (fun i j => stable_before probabilities j i)
    (top_indices probabilities n).
Proof.
  unfold top_indices.
  destruct (slice_from_is_skipn (- n) (argsort probabilities)) as [k ->].
  apply StronglySorted_rev, StronglySorted_skipn, argsort_sorted.
Qed.

Lemma skipn_incl {A : Type} k (l : list A) x : In x (skipn k l) -> In x l.
Proof.
  revert l. induction k as [|k IH]; intros [|y l]; simpl; auto.
Qed.

Lemma skipn_NoDup {A : Type} k (l : list A) : NoDup l -> NoDup (skipn k l).
Proof.
  revert l. induction k as [|k IH]; intros [|y l] H; simpl; auto.
  apply IH. now inversion H.
Qed.

Lemma top_indices_in_range n :
  Forall (fun i => (i < List.length probabilities)%nat)
    (top_indices probabilities n).
Proof.
  apply Forall_forall. intros i Hi. unfold top_indices in Hi.
  apply in_rev in Hi.
  destruct (slice_from_is_skipn (- n) (argsort probabilities)) as [k Hk].
  rewrite Hk in Hi. apply skipn_incl in Hi.
  apply (Permutation_in _ (argsort_perm probabilities)) in Hi.
  apply in_seq in Hi. lia.
Qed.

Lemma top_indices_NoDup n : NoDup (top_indices probabilities n).
Proof.
  unfold top_indices. apply NoDup_rev.
  destruct (slice_from_is_skipn (- n) (argsort probabilities)) as [k ->].
  apply skipn_NoDup.
  apply (Permutation_NoDup (Permutation_sym (argsort_perm probabilities))).
  apply seq_NoDup.
Qed.

End TopIndices.

Section Ranking.

Import Helpers.

Variable probabilities : list Q.
Variable labels : list string.
Hypothesis aligned : List.length labels = List.length probabilities.

Lemma collect_predictions_in_range idxs results :
  Forall (fun i => (i < List.length probabilities)%nat) idxs ->
  collect_predictions probabilities labels idxs results
  = Some (results ++ map (prediction_at probabilities labels) idxs)%list.
Proof.
  revert results. induction idxs as [|i idxs IH]; intros results H; simpl.
  - now rewrite app_nil_r.
  - inversion H as [|? ? Hi H']; subst.
    rewrite (nth_error_nth' labels "") by lia.
    rewrite (nth_error_nth' probabilities 0) by lia. simpl.
    rewrite IH by assumption. now rewrite <- app_assoc.
Qed.

(** With aligned inputs the function never raises, whatever [n] is. *)
Lemma get_top_n_predictions_total n :
  get_top_n_predictions probabilities labels n
  = Some (map (prediction_at probabilities labels) (top_indices probabilities n)).
Proof.
  unfold get_top_n_predictions. fold (top_indices probabilities n).
  now rewrite collect_predictions_in_range by apply top_indices_in_range.
Qed.

Lemma predictions_non_increasing n :
  Spec.confidence_non_increasing
    (map (prediction_at probabilities labels) (top_indices probabilities n)).
Proof.
  unfold Spec.confidence_non_increasing. apply StronglySorted_map.
  eapply StronglySorted_weaken; [|apply top_indices_sorted].
  intros i j [H | [H _]]; simpl; lra.
Qed.

Lemma predictions_aligned idxs :
  Forall (fun i => (i < List.length probabilities)%nat) idxs ->
  Forall2
    (fun i r => nth_error labels i = Some (crop r)
                /\ nth_error probabilities i = Some (confidence r))
    idxs (map (prediction_at probabilities labels) idxs).
Proof.
  induction 1 as [|i idxs Hi H IH]; simpl; constructor; [|assumption].
  simpl. split; apply nth_error_nth'; lia.
Qed.

End Ranking.

Section RankingClaims.

Import Helpers.

(** C5.  For every probability vector aligned 1:1 with a label list and
    every n with 1 <= n <= number of labels, [get_top_n_predictions]
    returns exactly n predictions, sorted non-increasing by confidence, each
    one carrying the label and the unmodified probability of one input
    index (distinct indices for distinct positions). *)
Theorem top_n_predictions_ranked (probabilities : list Q) (labels : list string)
    (n : Z)
    (aligned : List.length labels = List.length probabilities)
    (Hn : (1 <= n <= Z.of_nat (List.length labels))%Z) :
  exists results idxs,
    get_top_n_predictions probabilities labels n = Some results /\
    Z.of_nat (List.length results) = n /\
    Spec.confidence_non_increasing results /\
    NoDup idxs /\
    Forall2
      (fun i r => nth_error labels i = Some (crop r)
                  /\ nth_error probabilities i = Some (confidence r))
      idxs results.
Proof.
  exists (map (prediction_at probabilities labels) (top_indices probabilities n)).
  exists (top_indices probabilities n).
  split; [now apply get_top_n_predictions_total|].
  split; [rewrite length_map; apply top_indices_length; lia|].
  split; [apply predictions_non_increasing|].
  split; [apply top_indices_NoDup|].
  apply predictions_aligned; [assumption | apply top_indices_in_range].
Qed.

Lemma top_n_predictions_ranked_witness :
  exists results idxs,
    get_top_n_predictions [1 # 10; 1 # 2; 2 # 5] ["rice"; "maize"; "jute"] 2
      = Some results /\
    Z.of_nat (List.length results) = 2%Z /\
    Spec.confidence_non_increasing results /\
    NoDup idxs /\
    Forall2
      (fun i r => nth_error ["rice"; "maize"; "jute"] i = Some (crop r)
                  /\ nth_error [1 # 10; 1 # 2; 2 # 5] i = Some (confidence r))
      idxs results.
Proof.
  apply (top_n_predictions_ranked [1 # 10; 1 # 2; 2 # 5]
           ["rice"; "maize"; "jute"] 2); [reflexivity | simpl; lia].
Defined.

(** C10.  Called with n = 0, [get_top_n_predictions] returns one
    prediction for every label, ordered non-increasing by confidence: the
    length of the result is the label count (so neither 0 nor 1 as soon as
    there are two labels). *)
Theorem zero_count_returns_all (probabilities : list Q) (labels : list string)
    (aligned : List.length labels = List.length probabilities) :
  exists results idxs,
    get_top_n_predictions probabilities labels 0 = Some results /\
    List.length results = List.length labels /\
    Spec.confidence_non_increasing results /\
    Permutation idxs (seq 0 (List.length labels)) /\
    Forall2
      (fun i r => nth_error labels i = Some (crop r)
                  /\ nth_error probabilities i = Some (confidence r))
      idxs results /\
    ((List.length labels <= 1)%nat
     \/ (List.length results <> 0%nat /\ List.length results <> 1%nat)).
Proof.
  exists (map (prediction_at probabilities labels) (top_indices probabilities 0)).
  exists (top_indices probabilities 0).
  assert (Hlen : List.length (top_indices probabilities 0) = List.length labels).
  { rewrite top_indices_zero, length_rev, argsort_length. now symmetry. }
  split; [now apply get_top_n_predictions_total|].
  split; [now rewrite length_map|].
  split; [apply predictions_non_increasing|].
  split.
  { rewrite top_indices_zero, <- Permutation_rev, aligned.
    apply argsort_perm. }
  split; [apply predictions_aligned; [assumption | apply top_indices_in_range]|].
  rewrite length_map, Hlen. lia.
Qed.

Lemma zero_count_returns_all_witness :
  exists results idxs,
    get_top_n_predictions [1 # 10; 1 # 2; 2 # 5] ["rice"; "maize"; "jute"] 0
      = Some results /\
    List.length results = 3%nat /\
    Spec.confidence_non_increasing results /\
    Permutation idxs [0; 1; 2]%nat /\
    Forall2
      (fun i r => nth_error ["rice"; "maize"; "jute"] i = Some (crop r)
                  /\ nth_error [1 # 10; 1 # 2; 2 # 5] i = Some (confidence r))
      idxs results /\
    ((3 <= 1)%nat
     \/ (List.length results <> 0%nat /\ List.length results <> 1%nat)).
Proof.
  apply (zero_count_returns_all [1 # 10; 1 # 2; 2 # 5]
           ["rice"; "maize"; "jute"]); reflexivity.
Defined.




End RankingClaims.

(** ** Narrative explanation *)

Section Narrative.

Import Helpers.

Lemma insert_desc_perm x s : Permutation (insert_desc x s) (x :: s).
Proof.
  induction s as [|y s IH]; simpl; [reflexivity|].
  destruct (Py.Qltb (snd x) (snd y)); [|reflexivity].
  rewrite IH. apply perm_swap.
Qed.

Lemma insert_desc_sorted x s :
  Spec.importance_descending s -> Spec.importance_descending (insert_desc x s).
Proof.
  unfold Spec.importance_descending.
  induction 1 as [|y s Hs IH Hf]; simpl; [repeat constructor|].
  destruct (Qltb_spec (snd x) (snd y)) as [Hlt | Hge].
  - constructor; [assumption|].
    eapply Permutation_Forall; [symmetry; apply insert_desc_perm|].
    constructor; [lra | assumption].
  - constructor; [now constructor|].
    constructor; [lra|].
    eapply Forall_impl; [|exact Hf]. simpl. intros z Hz. lra.
Qed.

Lemma sorted_by_importance_perm items :
  Permutation (sorted_by_importance items) items.
Proof.
  induction items as [|x items IH]; simpl; [constructor|].
  rewrite insert_desc_perm. now constructor.
Qed.

Lemma sorted_by_importance_sorted items :
  Spec.importance_descending (sorted_by_importance items).
Proof.
  induction items as [|x items IH]; simpl; [constructor|].
  now apply insert_desc_sorted.
Qed.

(** The code's if/elif chain is the ladder followed by the template. *)
Lemma explanation_is_template feature value crop :
  _get_feature_explanation feature value crop =
  match Spec.ladder feature value with
  | Some b => Spec.template feature b value crop
  | None => EmptyString
  end.
Proof.
  unfold _get_feature_explanation, Spec.ladder, Spec.template.
  repeat match goal with
         | |- context [String.eqb feature ?s] =>
             destruct (String.eqb feature s) eqn:?
         end;
    try reflexivity;
    repeat match goal with
           | |- context [Py.Qltb ?x ?y] => destruct (Py.Qltb x y)
           | |- context [Qle_bool ?x ?y && Qle_bool ?u ?v] =>
               destruct (Qle_bool x y && Qle_bool u v)
           end;
    reflexivity.
Qed.

(** A feature the ladder knows always yields a non-empty phrase. *)
Lemma template_truthy feature value crop b :
  Spec.ladder feature value = Some b ->
  truthy (Spec.template feature b value crop) = true.
Proof.
  unfold Spec.ladder, Spec.template.
  repeat match goal with
         | |- context [String.eqb feature ?s] =>
             destruct (String.eqb feature s) eqn:?
         end;
    try discriminate;
    intros H; injection H as <-;
    repeat match goal with
           | |- context [Py.Qltb ?x ?y] => destruct (Py.Qltb x y)
           | |- context [Qle_bool ?x ?y && Qle_bool ?u ?v] =>
               destruct (Qle_bool x y && Qle_bool u v)
           end;
    reflexivity.
Qed.

Lemma collect_explanations_phrases features crop selected explanations :
  collect_explanations features crop selected explanations
  = (explanations ++ Spec.phrases features crop selected)%list.
Proof.
  revert explanations.
  induction selected as [|[name importance] selected IH]; intros explanations.
  - simpl. now rewrite app_nil_r.
  - cbn [collect_explanations]. rewrite IH.
    unfold Spec.phrases. cbn [flat_map fst].
    rewrite explanation_is_template.
    destruct (Spec.ladder name (Py.dict_get features name 0)) as [b|] eqn:E.
    + rewrite (template_truthy _ _ crop _ E). now rewrite <- app_assoc.
    + reflexivity.
Qed.

Lemma explanation_of_selection features crop feature_importance :
  generate_human_readable_explanation features crop feature_importance
  = Spec.narrative features crop
      (firstn 3 (sorted_by_importance feature_importance)).
Proof.
  unfold generate_human_readable_explanation, Spec.narrative.
  rewrite collect_explanations_phrases. reflexivity.
Qed.

(** C9.  For every features mapping, crop name and importance mapping the
    explanation is the single-space concatenation, in importance-descending
    order, of the canned phrases of the top 3 features by importance (the
    first three of the importance items ranked non-increasing), each phrase
    chosen by the feature's threshold ladder; when none of them yields a
    phrase it is the generic sentence naming the crop; and equal inputs give
    the equal string. *)
Theorem explanation_is_narrative features crop feature_importance :
  exists ranked,
    Permutation ranked feature_importance /\
    Spec.importance_descending ranked /\
    generate_human_readable_explanation features crop feature_importance
    = Spec.narrative features crop (firstn 3 ranked) /\
    (Spec.phrases features crop (firstn 3 ranked) = []
     \/ generate_human_readable_explanation features crop feature_importance
        = Py.join " " (Spec.phrases features crop (firstn 3 ranked))) /\
    (Spec.phrases features crop (firstn 3 ranked) <> []
     \/ generate_human_readable_explanation features crop feature_importance
        = crop ++ " is suitable for the given soil and climate conditions.") /\
    (forall features' crop' feature_importance',
       features' = features -> crop' = crop ->
       feature_importance' = feature_importance ->
       generate_human_readable_explanation features' crop' feature_importance'
       = generate_human_readable_explanation features crop feature_importance).
Proof.
  exists (sorted_by_importance feature_importance).
  split; [apply sorted_by_importance_perm|].
  split; [apply sorted_by_importance_sorted|].
  split; [apply explanation_of_selection|].
  refine (conj _ (conj _ _)); [| |now intros ? ? ? -> -> ->];
    rewrite explanation_of_selection; unfold Spec.narrative;
    destruct (Spec.phrases features crop
                (firstn 3 (sorted_by_importance feature_importance)))
      as [|p ps].
  - now left.
  - now right.
  - now right.
  - left. discriminate.
Qed.

End Narrative.

(** ** Further properties of the ranking *)

Section RankingMore.

Import Helpers.

Lemma StronglySorted_app_inv {A : Type} (R : A -> A -> Prop) (l1 l2 : list A) :
  StronglySorted R (l1 ++ l2)%list ->
  forall x y, In x l1 -> In y l2 -> R x y.
Proof.
  induction l1 as [|a l1 IH]; simpl; intros H x y Hx Hy; [contradiction|].
  inversion H as [|? ? Hs Hf]; subst. destruct Hx as [<- | Hx].
  - rewrite Forall_forall in Hf. apply Hf, in_or_app. now right.
  - now apply IH.
Qed.

Lemma slice_from_length {A : Type} (n : Z) (l : list A) :
  Z.of_nat (List.length (slice_from (- n) l))
  = if (0 <? n)%Z then Z.min n (Z.of_nat (List.length l))
    else Z.max 0 (Z.of_nat (List.length l) + n).
Proof.
  unfold slice_from. rewrite length_skipn.
  destruct (Z.ltb_spec (- n) 0), (Z.ltb_spec 0 n); lia.
Qed.

Lemma collect_predictions_enough_labels probabilities labels idxs results :
  (List.length probabilities <= List.length labels)%nat ->
  Forall (fun i => (i < List.length probabilities)%nat) idxs ->
  collect_predictions probabilities labels idxs results
  = Some (results ++ map (prediction_at probabilities labels) idxs)%list.
Proof.
  intros Hlen. revert results.
  induction idxs as [|i idxs IH]; intros results H; simpl.
  - now rewrite app_nil_r.
  - inversion H as [|? ? Hi H']; subst.
    rewrite (nth_error_nth' labels "") by lia.
    rewrite (nth_error_nth' probabilities 0) by lia. simpl.
    rewrite IH by assumption. now rewrite <- app_assoc.
Qed.

Lemma collect_predictions_missing_label probabilities labels idxs results i :
  In i idxs -> nth_error labels i = None ->
  collect_predictions probabilities labels idxs results = None.
Proof.
  revert results. induction idxs as [|j idxs IH]; intros results Hin Hnone;
    [contradiction|].
  simpl. destruct Hin as [-> | Hin].
  - now rewrite Hnone.
  - destruct (nth_error labels j); [|reflexivity]. simpl.
    destruct (nth_error probabilities j); [|reflexivity]. simpl.
    now apply IH.
Qed.

(** X1.  The number of predictions for every requested count, in or out of the
    valid range: a positive n is capped at the label count, and a count
    n <= 0 drops the |n| least probable labels, so that n = 0 returns all. *)
Theorem top_n_length_any_count (probabilities : list Q) (labels : list string)
    (n : Z)
    (aligned : List.length labels = List.length probabilities) :
  exists results,
    get_top_n_predictions probabilities labels n = Some results /\
    Z.of_nat (List.length results)
    = if (0 <? n)%Z then Z.min n (Z.of_nat (List.length labels))
      else Z.max 0 (Z.of_nat (List.length labels) + n).
Proof.
  eexists. split; [now apply get_top_n_predictions_total|].
  rewrite length_map. unfold top_indices.
  now rewrite length_rev, slice_from_length, argsort_length, aligned.
Qed.

Lemma top_n_length_any_count_witness :
  exists results,
    get_top_n_predictions [1 # 10; 1 # 2; 2 # 5] ["rice"; "maize"; "jute"] 7
      = Some results /\
    Z.of_nat (List.length results) = 3%Z.
Proof.
  apply (top_n_length_any_count [1 # 10; 1 # 2; 2 # 5]
           ["rice"; "maize"; "jute"] 7). reflexivity.
Defined.

(** X2.  The predictions returned are the most probable ones: a label that is
    left out has a probability no larger than any confidence returned. *)
Theorem top_n_are_the_largest (probabilities : list Q) (labels : list string)
    (n : Z)
    (aligned : List.length labels = List.length probabilities) :
  exists results idxs,
    get_top_n_predictions probabilities labels n = Some results /\
    Forall2
      (fun i r => nth_error labels i = Some (crop r)
                  /\ nth_error probabilities i = Some (confidence r))
      idxs results /\
    forall i, (i < List.length probabilities)%nat -> ~ In i idxs ->
      Forall (fun r => nth i probabilities 0 <= confidence r) results.
Proof.
  exists (map (prediction_at probabilities labels) (top_indices probabilities n)).
  exists (top_indices probabilities n).
  split; [now apply get_top_n_predictions_total|].
  split; [apply predictions_aligned; [assumption | apply top_indices_in_range]|].
  intros i Hi Hout. apply Forall_map, Forall_forall. intros j Hj. simpl.
  unfold top_indices in Hout, Hj.
  destruct (slice_from_is_skipn (- n) (argsort probabilities)) as [k Hk].
  rewrite Hk in Hout, Hj. rewrite <- in_rev in Hout, Hj.
  assert (Hin : In i (argsort probabilities)).
  { apply (Permutation_in _ (Permutation_sym (argsort_perm probabilities))).
    apply in_seq. lia. }
  rewrite <- (firstn_skipn k (argsort probabilities)) in Hin.
  apply in_app_or in Hin as [Hfirst | Hlast]; [|contradiction].
  pose proof (argsort_sorted probabilities) as Hs.
  rewrite <- (firstn_skipn k (argsort probabilities)) in Hs.
  destruct (StronglySorted_app_inv _ _ _ Hs i j Hfirst Hj) as [H | [H _]]; lra.
Qed.

Lemma top_n_are_the_largest_witness :
  exists results idxs,
    get_top_n_predictions [1 # 10; 1 # 2; 2 # 5] ["rice"; "maize"; "jute"] 2
      = Some results /\
    Forall2
      (fun i r => nth_error ["rice"; "maize"; "jute"] i = Some (crop r)
                  /\ nth_error [1 # 10; 1 # 2; 2 # 5] i = Some (confidence r))
      idxs results /\
    forall i, (i < 3)%nat -> ~ In i idxs ->
      Forall (fun r => nth i [1 # 10; 1 # 2; 2 # 5] 0 <= confidence r) results.
Proof.
  apply (top_n_are_the_largest [1 # 10; 1 # 2; 2 # 5]
           ["rice"; "maize"; "jute"] 2). reflexivity.
Defined.

(** X3.  Asking for fewer predictions gives a prefix of what asking for more
    gives: for 1 <= n <= m <= label count, the top n are the first n of the
    top m. *)
Theorem top_n_is_prefix_of_top_m (probabilities : list Q) (labels : list string)
    (n m : Z)
    (aligned : List.length labels = List.length probabilities)
    (Hnm : (1 <= n <= m)%Z)
    (Hm : (m <= Z.of_nat (List.length labels))%Z) :
  exists top_n top_m,
    get_top_n_predictions probabilities labels n = Some top_n /\
    get_top_n_predictions probabilities labels m = Some top_m /\
    top_n = firstn (Z.to_nat n) top_m.
Proof.
  eexists. eexists.
  split; [now apply get_top_n_predictions_total|].
  split; [now apply get_top_n_predictions_total|].
  rewrite firstn_map. f_equal. unfold top_indices.
  pose proof (argsort_length probabilities) as Hlen.
  rewrite !slice_from_last by (rewrite Hlen; lia).
  rewrite firstn_rev, skipn_skipn, length_skipn, Hlen.
  do 2 f_equal. lia.
Qed.

Lemma top_n_is_prefix_of_top_m_witness :
  exists top_n top_m,
    get_top_n_predictions [1 # 10; 1 # 2; 2 # 5] ["rice"; "maize"; "jute"] 1
      = Some top_n /\
    get_top_n_predictions [1 # 10; 1 # 2; 2 # 5] ["rice"; "maize"; "jute"] 3
      = Some top_m /\
    top_n = firstn (Z.to_nat 1) top_m.
Proof.
  apply (top_n_is_prefix_of_top_m [1 # 10; 1 # 2; 2 # 5]
           ["rice"; "maize"; "jute"] 1 3); [reflexivity | lia | simpl; lia].
Defined.

(** X4.  Indexing the labels is the only thing that can raise: with at least
    as many labels as probabilities every count returns a list, and asking
    for all predictions (n = 0) raises IndexError exactly when there are
    fewer labels than probabilities. *)
Theorem top_n_raises_on_short_labels (probabilities : list Q)
    (labels : list string) :
  (forall n, (List.length probabilities <= List.length labels)%nat ->
     exists results, get_top_n_predictions probabilities labels n = Some results)
  /\ (get_top_n_predictions probabilities labels 0 = None
      <-> (List.length labels < List.length probabilities)%nat).
Proof.
  assert (Hsome : forall n,
            (List.length probabilities <= List.length labels)%nat ->
            exists results,
              get_top_n_predictions probabilities labels n = Some results).
  { intros n Hle. eexists. unfold get_top_n_predictions.
    fold (top_indices probabilities n).
    apply collect_predictions_enough_labels;
      [assumption | apply top_indices_in_range]. }
  split; [exact Hsome|]. split.
  - intros Hnone.
    destruct (Nat.le_gt_cases (List.length probabilities) (List.length labels))
      as [Hle | Hgt]; [|assumption].
    destruct (Hsome 0%Z Hle) as [r Hr]. congruence.
  - intros Hlt. unfold get_top_n_predictions.
    apply (collect_predictions_missing_label _ _ _ _ (List.length labels)).
    + rewrite slice_from_zero, <- in_rev.
      apply (Permutation_in _ (Permutation_sym (argsort_perm probabilities))).
      apply in_seq. lia.
    + apply nth_error_None. lia.
Qed.

End RankingMore.

(** ** Further properties of the sustainability analysis *)

Section SustainabilityMore.

Import SustainabilityService.

Lemma consumption_at_least_one crop :
  let c := Py.dict_get CROP_NPK_CONSUMPTION crop default_consumption in
  1 <= npk_N c /\ 1 <= npk_P c /\ 1 <= npk_K c.
Proof.
  apply (dict_get_Forall
           (fun c => 1 <= npk_N c /\ 1 <= npk_P c /\ 1 <= npk_K c)).
  - unfold CROP_NPK_CONSUMPTION. simpl.
    repeat constructor; simpl; unfold Qle; simpl; lia.
  - unfold default_consumption. simpl. repeat split; unfold Qle; simpl; lia.
Qed.

Lemma depletion_report_capped crop soil_params :
  let dp := depletion_percent (depletion_report crop soil_params) in
  (0 <= npk_N dp <= 100) /\ (0 <= npk_P dp <= 100) /\ (0 <= npk_K dp <= 100).
Proof.
  unfold depletion_report. cbn [depletion_percent npk_N npk_P npk_K].
  destruct (consumption_nonneg crop) as (HN & HP & HK).
  repeat split; apply capped_range;
    rewrite code_percent_uncapped; now apply uncapped_nonneg.
Qed.

Lemma trunc_clamped_at_least x k :
  (0 <= k <= 100)%Z -> inject_Z k <= x -> (k <= trunc_clamped x)%Z.
Proof.
  intros Hk H. unfold trunc_clamped.
  assert (0 <= inject_Z k) by (unfold Qle; simpl; lia).
  destruct (Qltb_spec x 0) as [Hneg | _]; [lra|].
  destruct (Qltb_spec x 100) as [_ | _]; [|lia].
  destruct x as [num den]. unfold Qle, inject_Z in H. unfold Qfloor.
  simpl in *. apply Z.div_le_lower_bound; lia.
Qed.

Lemma py_max0_cases x :
  (0 < x /\ Py.max 0 x = x) \/ (x <= 0 /\ Py.max 0 x = 0).
Proof.
  unfold Py.max. destruct (Qltb_spec 0 x) as [H | H]; [now left | right].
  split; [lra | reflexivity].
Qed.

(** The raw score before truncation and clamping. *)
Lemma score_is_trunc_clamped depletion water soil_params :
  exists penalty bonus : Q,
    _calculate_sustainability_score depletion water soil_params
    = trunc_clamped
        (100 - npk_sum (depletion_percent depletion) / 3 * (3 # 10)
         - penalty + bonus)
    /\ (risk_level water = "high" /\ penalty = 20
        \/ risk_level water <> "high" /\ 0 <= penalty <= 10)
    /\ 0 <= bonus <= 5.
Proof.
  unfold _calculate_sustainability_score. rewrite int_then_clamp.
  destruct (String.eqb_spec (risk_level water) "high") as [Hh | Hh];
    [|destruct (String.eqb (risk_level water) "medium")];
    destruct (Qle_bool 6 (Py.dict_get soil_params "pH" 7)
              && Qle_bool (Py.dict_get soil_params "pH" 7) (15 # 2)).
  - exists 20, 5. split; [apply trunc_clamped_comp; field|].
    split; [left; split; [assumption | reflexivity] | lra].
  - exists 20, 0. split; [apply trunc_clamped_comp; field|].
    split; [left; split; [assumption | reflexivity] | lra].
  - exists 10, 5. split; [apply trunc_clamped_comp; field|].
    split; [right; split; [assumption | lra] | lra].
  - exists 10, 0. split; [apply trunc_clamped_comp; field|].
    split; [right; split; [assumption | lra] | lra].
  - exists 0, 5. split; [apply trunc_clamped_comp; field|].
    split; [right; split; [assumption | lra] | lra].
  - exists 0, 0. split; [apply trunc_clamped_comp; field|].
    split; [right; split; [assumption | lra] | lra].
Qed.

(** X5.  Because the reported percentages are capped, the analysis never scores
    below 50; and it scores below 60 (the threshold of the two general
    recommendations) only when the water risk is high. *)
Theorem analysis_score_at_least_50 crop soil_params duration_months :
  exists r,
    analyze_soil_impact crop soil_params duration_months = Some r /\
    (50 <= sustainability_score r <= 100)%Z /\
    ((60 <= sustainability_score r)%Z
     \/ risk_level (water_risk r) = "high").
Proof.
  eexists. split; [apply analyze_total|]. cbv zeta.
  cbn [sustainability_score water_risk].
  set (dep := depletion_report (Py.lower crop) soil_params).
  set (water := _calculate_water_risk (Py.lower crop)
                  (Py.dict_get soil_params "rainfall" 0)).
  destruct (score_is_trunc_clamped dep water soil_params)
    as (penalty & bonus & -> & Hpen & Hbonus).
  destruct (depletion_report_capped (Py.lower crop) soil_params)
    as (HN & HP & HK). fold dep in HN, HP, HK.
  set (x := 100 - npk_sum (depletion_percent dep) / 3 * (3 # 10)
            - penalty + bonus).
  assert (Havg : 0 <= npk_sum (depletion_percent dep) / 3 * (3 # 10) <= 30).
  { unfold npk_sum. split.
    - apply Qmult_le_0_compat; [|lra]. apply Qle_shift_div_l; lra.
    - assert (npk_sum (depletion_percent dep) / 3 <= 100).
      { apply Qle_shift_div_r; unfold npk_sum; lra. }
      unfold npk_sum in *. lra. }
  split; [split|].
  - apply (trunc_clamped_at_least x 50); [lia|].
    unfold x, inject_Z. destruct Hpen as [[_ ->] | [_ Hp]]; lra.
  - unfold trunc_clamped.
    destruct (Qltb_spec x 0) as [_ | Hnn]; [lia|].
    destruct (Qltb_spec x 100) as [Hlt | _]; [|lia].
    assert (H0 : 0 <= x) by lra. pose proof (floor_range x H0 Hlt). lia.
  - destruct Hpen as [[Hh _] | [_ Hp]]; [now right | left].
    apply (trunc_clamped_at_least x 60); [lia|]. unfold x, inject_Z. lra.
Qed.

(** X6.  Water balance: deficit and surplus are non-negative, never both
    positive, and their difference is the gap between the seasonal rainfall
    and the crop's need; a surplus alone never gives more than medium risk. *)
Theorem water_balance crop rainfall :
  let r := _calculate_water_risk crop rainfall in
  0 <= deficit r /\ 0 <= surplus r /\
  deficit r * surplus r == 0 /\
  available_water r - water_need r == surplus r - deficit r /\
  (deficit r == 0 /\ risk_level r <> "high" \/ 0 < deficit r /\ surplus r == 0).
Proof.
  intros r. unfold r, _calculate_water_risk.
  set (need := Py.dict_get CROP_WATER_NEEDS crop default_water_need).
  cbn [deficit surplus available_water water_need risk_level].
  destruct (py_max0_cases (need - rainfall * 4)) as [[Hd Ed] | [Hd Ed]];
    destruct (py_max0_cases (rainfall * 4 - need)) as [[Hs Es] | [Hs Es]];
    rewrite ?Ed, ?Es.
  - exfalso. lra.
  - repeat split; lra.
  - repeat split; try lra. left. split; [lra|].
    change (Py.Qltb 400 0) with false. change (Py.Qltb 200 0) with false.
    cbv iota. destruct (Py.Qltb 400 (rainfall * 4 - need)); discriminate.
  - repeat split; try lra. left. split; [lra|]. discriminate.
Qed.

End SustainabilityMore.

Section DepletionMore.

Import SustainabilityService.

Lemma exhausted_iff_capped c current :
  1 <= c ->
  (Py.max 0 (current - c) == 0
   <-> Py.min 100 (c / Py.max current 1 * 100) == 100).
Proof.
  intros Hc.
  pose proof (guarded_divisor_pos current) as Hm.
  assert (Hmax : Py.max current 1 == Qmax current 1) by apply py_max_Qmax.
  set (m := Py.max current 1) in *.
  assert (Hcm : m <= c <-> current <= c).
  { rewrite Hmax. split; intros H.
    - pose proof (Q.le_max_l current 1). lra.
    - apply Q.max_lub; assumption. }
  destruct (py_max0_cases (current - c)) as [[Hpos E] | [Hnp E]]; rewrite E.
  - assert (Hlt : c / m < 1).
    { apply Qlt_shift_div_r; [lra|]. apply Qnot_le_lt. intros H.
      assert (H' : m <= c) by lra. apply Hcm in H'. lra. }
    split; [intros H; lra|].
    unfold Py.min. destruct (Qltb_spec (c / m * 100) 100); lra.
  - assert (Hge : 1 <= c / m).
    { apply Qle_shift_div_l; [lra|]. assert (m <= c) by (apply Hcm; lra). lra. }
    split; [intros _ | reflexivity].
    unfold Py.min. destruct (Qltb_spec (c / m * 100) 100); lra.
Qed.

(** X7.  A nutrient is reported as fully depleted (100 percent) exactly when
    nothing of it remains after harvest, for every crop and every soil
    value, including values below 1. *)
Theorem fully_depleted_iff_nothing_remains crop soil_params :
  exists r,
    _calculate_nutrient_depletion crop soil_params = Some r /\
    (npk_N (remaining r) == 0 <-> npk_N (depletion_percent r) == 100) /\
    (npk_P (remaining r) == 0 <-> npk_P (depletion_percent r) == 100) /\
    (npk_K (remaining r) == 0 <-> npk_K (depletion_percent r) == 100).
Proof.
  eexists. split; [apply depletion_total|].
  unfold depletion_report.
  cbn [remaining depletion_percent npk_N npk_P npk_K].
  destruct (consumption_at_least_one crop) as (HN & HP & HK).
  repeat split; apply exhausted_iff_capped; assumption.
Qed.

Lemma capped_le_raw x : Py.min 100 x <= x.
Proof.
  unfold Py.min. destruct (Qltb_spec x 100); lra.
Qed.

Lemma severity_above_50 n p k :
  50 < (n + p + k) / 3 ->
  _get_depletion_severity n p k = "high"
  \/ _get_depletion_severity n p k = "severe".
Proof.
  intros H. unfold _get_depletion_severity.
  destruct (Qltb_spec 70 ((n + p + k) / 3)); [now right|].
  destruct (Qltb_spec 50 ((n + p + k) / 3)); [now left | contradiction].
Qed.

Lemma capped_average_le_raw a b c :
  (0 + Py.min 100 a + Py.min 100 b + Py.min 100 c) / 3 <= (a + b + c) / 3.
Proof.
  pose proof (capped_le_raw a). pose proof (capped_le_raw b).
  pose proof (capped_le_raw c).
  unfold Qdiv. change (/ 3) with (1 # 3). lra.
Qed.

Lemma report_severity_above_50 crop soil_params :
  50 < npk_sum (depletion_percent (depletion_report crop soil_params)) / 3 ->
  severity (depletion_report crop soil_params) = "high"
  \/ severity (depletion_report crop soil_params) = "severe".
Proof.
  unfold depletion_report, npk_sum.
  cbn [severity depletion_percent npk_N npk_P npk_K].
  intros H. apply severity_above_50.
  eapply Qlt_le_trans; [exact H | apply capped_average_le_raw].
Qed.

(** X8.  The rotation rule on the average of the capped percentages and the
    severity on the average of the raw ones agree in one direction: when
    the light-feeder suggestion ('Overall nutrient depletion') is made, the
    severity is 'high' or 'severe'. *)
Theorem light_feeders_imply_high_severity crop soil_params duration_months :
  exists r,
    analyze_soil_impact crop soil_params duration_months = Some r /\
    ((forall e, In e (suggestions (crop_rotation r)) ->
                reason e <> "Overall nutrient depletion")
     \/ severity (nutrient_depletion r) = "high"
     \/ severity (nutrient_depletion r) = "severe").
Proof.
  eexists. split; [apply analyze_total|]. cbv zeta.
  cbn [crop_rotation nutrient_depletion].
  unfold _suggest_crop_rotation. cbn [suggestions].
  set (dep := depletion_report (Py.lower crop) soil_params).
  destruct (Qltb_spec 50 (npk_sum (depletion_percent dep) / 3)) as [H50 | H50].
  - right. now apply report_severity_above_50.
  - left. intros e He.
    destruct (Py.Qltb 60 (npk_N (depletion_percent dep)));
      destruct (String.eqb (severity dep) "severe");
      simpl in He; intuition (subst; discriminate).
Qed.

Lemma distinct_strings_NoDup (l : list string) :
  distinct_strings l = true -> NoDup l.
Proof.
  induction l as [|x l IH]; simpl; intros H; constructor.
  - apply andb_true_iff in H as [H _]. apply negb_true_iff in H.
    intros Hin. assert (existsb (String.eqb x) l = true); [|congruence].
    apply existsb_exists. exists x. split; [assumption|].
    apply String.eqb_refl.
  - apply IH. now apply andb_true_iff in H as [_ H].
Qed.

(** X9.  The two advisory lists stay small and free of repetitions: between one
    and three rotation suggestions with distinct reasons, between one and
    seven distinct recommendations. *)
Theorem advisory_lists_bounded current depletion water score :
  let sugg := suggestions (_suggest_crop_rotation current depletion) in
  let recs := _generate_recommendations current depletion water score in
  (1 <= List.length sugg <= 3)%nat /\ NoDup (map reason sugg) /\
  (1 <= List.length recs <= 7)%nat /\ NoDup recs.
Proof.
  intros sugg recs. split; [|split].
  - unfold sugg, _suggest_crop_rotation. cbn [suggestions].
    destruct (Py.Qltb 60 (npk_N (depletion_percent depletion))),
      (Py.Qltb 50 (npk_sum (depletion_percent depletion) / 3)),
      (String.eqb (severity depletion) "severe"); simpl; lia.
  - unfold sugg, _suggest_crop_rotation. cbn [suggestions].
    destruct (Py.Qltb 60 (npk_N (depletion_percent depletion))),
      (Py.Qltb 50 (npk_sum (depletion_percent depletion) / 3)),
      (String.eqb (severity depletion) "severe");
      apply distinct_strings_NoDup; vm_compute; reflexivity.
  - unfold recs, _generate_recommendations.
    destruct (Py.Qltb 50 (npk_N (depletion_percent depletion))),
      (Py.Qltb 50 (npk_P (depletion_percent depletion))),
      (Py.Qltb 50 (npk_K (depletion_percent depletion))),
      (String.eqb (risk_level water) "high"),
      (Py.Qltb 300 (surplus water)), (score <? 60)%Z;
      (split; [cbv [List.length app]; lia
              | apply distinct_strings_NoDup; vm_compute; reflexivity]).
Qed.

(** X10.  The crop name is matched without regard to (ASCII) letter case: two
    spellings with the same lowercase form get the same analysis, each
    report echoing its own spelling. *)
Theorem crop_name_case_insensitive crop1 crop2 soil_params d1 d2
  (Hcase : Py.lower crop1 = Py.lower crop2) :
  exists r1 r2,
    analyze_soil_impact crop1 soil_params d1 = Some r1 /\
    analyze_soil_impact crop2 soil_params d2 = Some r2 /\
    crop r1 = crop1 /\ crop r2 = crop2 /\
    sustainability_score r1 = sustainability_score r2 /\
    nutrient_depletion r1 = nutrient_depletion r2 /\
    water_risk r1 = water_risk r2 /\
    crop_rotation r1 = crop_rotation r2 /\
    recommendations r1 = recommendations r2.
Proof.
  eexists. eexists.
  split; [apply analyze_total|]. split; [apply analyze_total|].
  cbv zeta. cbn [crop sustainability_score nutrient_depletion water_risk
                 crop_rotation recommendations].
  rewrite Hcase. repeat split.
Qed.

Lemma crop_name_case_insensitive_witness :
  exists r1 r2,
    analyze_soil_impact "Rice" [("N", 90); ("rainfall", 202)] 4 = Some r1 /\
    analyze_soil_impact "RICE" [("N", 90); ("rainfall", 202)] 6 = Some r2 /\
    crop r1 = "Rice" /\ crop r2 = "RICE" /\
    sustainability_score r1 = sustainability_score r2 /\
    nutrient_depletion r1 = nutrient_depletion r2 /\
    water_risk r1 = water_risk r2 /\
    crop_rotation r1 = crop_rotation r2 /\
    recommendations r1 = recommendations r2.
Proof.
  apply (crop_name_case_insensitive "Rice" "RICE"). reflexivity.
Defined.

End DepletionMore.

(** ** Further properties of the narrative explanation *)

Section NarrativeMore.

Import Helpers.

Lemma truthy_app_r s t : truthy t = true -> truthy (s ++ t) = true.
Proof.
  intros H. destruct s; simpl; [assumption | reflexivity].
Qed.

Lemma truthy_app_l s t : truthy s = true -> truthy (s ++ t) = true.
Proof.
  destruct s; simpl; [discriminate | reflexivity].
Qed.

Lemma phrases_truthy features crop selected :
  Forall (fun p => truthy p = true) (Spec.phrases features crop selected).
Proof.
  unfold Spec.phrases. induction selected as [|item selected IH]; simpl;
    [constructor|].
  apply Forall_app. split; [|assumption].
  destruct (Spec.ladder (fst item) (Py.dict_get features (fst item) 0))
    as [b|] eqn:E; repeat constructor.
  now apply template_truthy.
Qed.

Lemma join_truthy sep p ps : truthy p = true -> truthy (Py.join sep (p :: ps)) = true.
Proof.
  intros H. destruct ps; simpl; [assumption | now apply truthy_app_l].
Qed.

Lemma phrases_length features crop selected :
  (List.length (Spec.phrases features crop selected) <= List.length selected)%nat.
Proof.
  unfold Spec.phrases. induction selected as [|item selected IH]; simpl;
    [lia|].
  rewrite length_app.
  destruct (Spec.ladder (fst item) (Py.dict_get features (fst item) 0));
    simpl; lia.
Qed.

(** X11.  The explanation is never the empty string, whatever the features, the
    crop name (even an empty one) and the importance mapping are. *)
Theorem explanation_never_empty features crop feature_importance :
  generate_human_readable_explanation features crop feature_importance
  <> EmptyString
  /\ truthy
       (generate_human_readable_explanation features crop feature_importance)
     = true.
Proof.
  assert (H : truthy (generate_human_readable_explanation features crop
                        feature_importance) = true).
  { rewrite explanation_of_selection. unfold Spec.narrative.
    pose proof (phrases_truthy features crop
                  (firstn 3 (sorted_by_importance feature_importance))) as Hp.
    destruct (Spec.phrases features crop
                (firstn 3 (sorted_by_importance feature_importance)))
      as [|p ps].
    - now apply truthy_app_r.
    - inversion Hp; subst. now apply join_truthy. }
  split; [|exact H]. intros E. rewrite E in H. discriminate.
Qed.

(** The seven feature names the threshold ladder knows. *)
Lemma ladder_unknown feature value :
  ~ In feature known_features -> Spec.ladder feature value = None.
Proof.
  unfold known_features, Spec.ladder. intros H.
  repeat match goal with
         | |- context [String.eqb feature ?s] =>
             destruct (String.eqb_spec feature s) as [-> | _];
             [exfalso; apply H; simpl; tauto|]
         end.
  reflexivity.
Qed.

Lemma phrases_unknown features crop selected :
  Forall (fun item => ~ In (fst item) known_features) selected ->
  Spec.phrases features crop selected = [].
Proof.
  unfold Spec.phrases. induction 1 as [|item selected Hi H IH]; simpl;
    [reflexivity|].
  rewrite (ladder_unknown _ _ Hi). assumption.
Qed.

Lemma firstn_Forall {A : Type} (P : A -> Prop) k (l : list A) :
  Forall P l -> Forall P (firstn k l).
Proof.
  intros H. apply Forall_forall. intros x Hx.
  rewrite Forall_forall in H. apply H.
  rewrite <- (firstn_skipn k l). apply in_or_app. now left.
Qed.

(** X12.  When none of the importance mapping's keys is one of the seven
    feature names (in particular when the mapping is empty), the
    explanation is the generic sentence naming the crop. *)
Theorem explanation_fallback_without_known_feature features crop
    feature_importance
  (Hunknown : Forall (fun item => ~ In (fst item) known_features)
                feature_importance) :
  generate_human_readable_explanation features crop feature_importance
  = crop ++ " is suitable for the given soil and climate conditions.".
Proof.
  rewrite explanation_of_selection. unfold Spec.narrative.
  rewrite phrases_unknown; [reflexivity|].
  apply firstn_Forall.
  eapply Permutation_Forall;
    [symmetry; apply sorted_by_importance_perm | assumption].
Qed.

Lemma explanation_fallback_without_known_feature_witness :
  generate_human_readable_explanation [("N", 90)] "rice"
    [("soil_type", 1 # 2); ("altitude", 1 # 4)]
  = "rice" ++ " is suitable for the given soil and climate conditions.".
Proof.
  apply (explanation_fallback_without_known_feature [("N", 90)] "rice"
           [("soil_type", 1 # 2); ("altitude", 1 # 4)]).
  repeat constructor; simpl; intuition discriminate.
Defined.

Lemma phrases_ext features features' crop selected :
  Forall (fun item => Py.dict_get features (fst item) 0
                      = Py.dict_get features' (fst item) 0) selected ->
  Spec.phrases features crop selected = Spec.phrases features' crop selected.
Proof.
  unfold Spec.phrases. induction 1 as [|item selected Hi H IH]; simpl;
    [reflexivity|].
  now rewrite Hi, IH.
Qed.

(** X13.  Only the three most important features are read: two feature
    mappings that give the same values to the first three names of the
    importance ranking yield the same explanation. *)
Theorem explanation_reads_top_three_only features features' crop
    feature_importance
  (Hagree : Forall (fun item => Py.dict_get features (fst item) 0
                                = Py.dict_get features' (fst item) 0)
              (firstn 3 (sorted_by_importance feature_importance))) :
  generate_human_readable_explanation features crop feature_importance
  = generate_human_readable_explanation features' crop feature_importance.
Proof.
  rewrite !explanation_of_selection. unfold Spec.narrative.
  now rewrite (phrases_ext features features').
Qed.

Lemma explanation_reads_top_three_only_witness :
  generate_human_readable_explanation
    [("rainfall", 202); ("humidity", 82); ("K", 43); ("N", 90)] "rice"
    [("N", 1 # 10); ("rainfall", 3 # 10); ("humidity", 1 # 5); ("K", 1 # 5)]
  = generate_human_readable_explanation
      [("rainfall", 202); ("humidity", 82); ("K", 43); ("N", 10)] "rice"
      [("N", 1 # 10); ("rainfall", 3 # 10); ("humidity", 1 # 5); ("K", 1 # 5)].
Proof.
  apply explanation_reads_top_three_only.
  repeat constructor.
Defined.

End NarrativeMore.

(** ** Input validation *)

Section Lookup.

Import Validators.

Lemma lookup_mem {V : Type} (d : Py.dict V) k :
  Py.dict_mem d k = true <-> exists v, lookup d k = Some v.
Proof.
  induction d as [|[k' v'] d IH]; simpl.
  - split; [discriminate | intros [v H]; discriminate].
  - destruct (String.eqb k k'); simpl; [|exact IH].
    split; [eauto | reflexivity].
Qed.

Lemma lookup_not_mem {V : Type} (d : Py.dict V) k :
  Py.dict_mem d k = false <-> lookup d k = None.
Proof.
  induction d as [|[k' v'] d IH]; simpl; [tauto|].
  destruct (String.eqb k k'); simpl; [|exact IH].
  split; discriminate.
Qed.

Lemma lookup_In {V : Type} (d : Py.dict V) k v :
  lookup d k = Some v -> In v (map snd d).
Proof.
  induction d as [|[k' v'] d IH]; simpl; [discriminate|].
  destruct (String.eqb k k'); [intros H; injection H as <-; now left|].
  intros H. right. now apply IH.
Qed.

Lemma filter_nil_Forall {A : Type} (p : A -> bool) (l : list A) :
  filter p l = [] <-> Forall (fun x => p x = false) l.
Proof.
  induction l as [|a l IH]; simpl; [split; auto|].
  destruct (p a) eqn:E.
  - split; [discriminate | intros H; inversion H; congruence].
  - rewrite IH. split; [now constructor | intros H; now inversion H].
Qed.

End Lookup.

Section Validation.

Import Validators.

Variable float_of_str : string -> option Q.
Variable str_of_float : Q -> string.

Lemma required_fields_have_ranges :
  Forall (fun f => Py.dict_mem Config.FEATURE_RANGES f = true) required_fields.
Proof. repeat constructor. Qed.

Lemma float_overflow_huge v :
  float float_of_str v = Overflow <-> huge_int v.
Proof.
  unfold huge_int. split.
  - destruct v as [| b | [z | q] | s | r]; simpl; try discriminate.
    + destruct (Z.ltb_spec (Z.abs z) int_overflow_bound); [discriminate|].
      intros _. exists z. auto.
    + destruct (float_of_str s); discriminate.
  - intros (z & -> & Hz). simpl.
    destruct (Z.ltb_spec (Z.abs z) int_overflow_bound); [lia | reflexivity].
Qed.

Lemma check_fields_spec data fields :
  Forall (fun f => Py.dict_mem data f = true) fields ->
  Forall (fun f => Py.dict_mem Config.FEATURE_RANGES f = true) fields ->
  match check_fields float_of_str str_of_float data fields with
  | Some (verdict, message) =>
      (verdict = true <-> Forall (field_ok float_of_str data) fields) /\
      (verdict = true <-> message = EmptyString)
  | None =>
      exists field v,
        In field fields /\ lookup data field = Some v /\ huge_int v
  end.
Proof.
  induction fields as [|field rest IH]; intros Hdata Hrange.
  - simpl. repeat split; auto.
  - inversion Hdata as [|? ? Hd Hdata']; subst.
    inversion Hrange as [|? ? Hr Hrange']; subst.
    specialize (IH Hdata' Hrange').
    apply lookup_mem in Hd as [v Hv]. apply lookup_mem in Hr as [[lo hi] Hlh].
    cbn [check_fields]. rewrite Hv. cbn [Py.bind].
    destruct (float float_of_str v) as [x | |] eqn:Ex.
    + rewrite (proj2 (lookup_mem _ _) (ex_intro _ _ Hlh)), Hlh.
      cbn [Py.bind].
      destruct (Qle_bool (Config.to_Q lo) x && Qle_bool x (Config.to_Q hi))
        eqn:Ein; cbn [negb].
      * apply andb_true_iff in Ein as [E1 E2].
        apply Qle_bool_iff in E1, E2.
        destruct (check_fields float_of_str str_of_float data rest)
          as [[verdict message]|].
        -- destruct IH as [Hok Hmsg]. split; [|exact Hmsg].
           rewrite Hok. split.
           ++ intros H. constructor; [|assumption].
              exists v, x, lo, hi. auto.
           ++ intros H. now inversion H.
        -- destruct IH as (f & v' & Hin & Hl & Hh).
           exists f, v'. split; [now right | auto].
      * split; (split; [discriminate|]).
        -- intros H.
           inversion H as [|? ? (v' & x' & lo' & hi' & A & B & C & D) _].
           subst. rewrite Hv in A. injection A as <-.
           rewrite Ex in B. injection B as <-.
           rewrite Hlh in C. injection C as <- <-.
           assert (Qle_bool (Config.to_Q lo) x && Qle_bool x (Config.to_Q hi)
                   = true).
           { apply andb_true_iff. split; apply Qle_bool_iff; tauto. }
           congruence.
        -- discriminate.
    + split; (split; [discriminate|]).
      * intros H. inversion H as [|? ? (v' & x' & lo' & hi' & A & B & _) _].
        subst. rewrite Hv in A. injection A as <-. congruence.
      * discriminate.
    + exists field, v. split; [now left|]. split; [assumption|].
      now apply float_overflow_huge.
Qed.

(** The outcome of the validator characterised. *)
Lemma validate_spec data :
  match validate_soil_climate_input float_of_str str_of_float data with
  | Some (verdict, message) =>
      (verdict = true <-> Forall (field_ok float_of_str data) required_fields)
      /\ (verdict = true <-> message = EmptyString)
  | None =>
      exists field v,
        In field required_fields /\ lookup data field = Some v /\ huge_int v
  end.
Proof.
  unfold validate_soil_climate_input.
  destruct (filter (fun field => negb (Py.dict_mem data field)) required_fields)
    as [|m ms] eqn:Emissing.
  - apply check_fields_spec; [|apply required_fields_have_ranges].
    apply filter_nil_Forall in Emissing.
    eapply Forall_impl; [|exact Emissing]. simpl. intros f Hf.
    now apply negb_false_iff.
  - split; (split; [discriminate|]).
    + intros Hall. exfalso.
      assert (Hin : In m (m :: ms)) by now left.
      rewrite <- Emissing in Hin. apply filter_In in Hin as [Hm Hmem].
      rewrite Forall_forall in Hall.
      destruct (Hall m Hm) as (v & _ & _ & _ & Hv & _).
      apply negb_true_iff, lookup_not_mem in Hmem. congruence.
    + discriminate.
Qed.

(** X14.  [validate_soil_climate_input] accepts exactly when every one of the
    seven required fields is present, is converted by float(), and lies
    within its configured range (bounds included); the message is empty
    exactly on acceptance.  The only way it raises is the OverflowError of
    a required field holding an int beyond the range of a double. *)
Theorem validation_accepts_iff_all_fields_ok data :
  match validate_soil_climate_input float_of_str str_of_float data with
  | Some (verdict, message) =>
      (verdict = true <-> Forall (field_ok float_of_str data) required_fields)
      /\ (verdict = true <-> message = EmptyString)
  | None =>
      exists field v,
        In field required_fields /\ lookup data field = Some v /\ huge_int v
  end.
Proof. apply validate_spec. Qed.

(** What [sanitize_input] does to one value. *)
Lemma sanitize_lookup data sanitized k :
  sanitize_input float_of_str data = Some sanitized ->
  match lookup data k with
  | None => lookup sanitized k = None
  | Some v =>
      (exists x, float float_of_str v = Converted x
                 /\ lookup sanitized k = Some (VNum (Config.Float x)))
      \/ (float float_of_str v = Rejected /\ lookup sanitized k = Some v)
  end.
Proof.
  revert sanitized. induction data as [|[k' v] data IH]; intros sanitized H.
  - injection H as <-. reflexivity.
  - cbn [sanitize_input] in H. cbn [lookup].
    destruct (float float_of_str v) as [x | |] eqn:Ev; [| |discriminate];
      destruct (sanitize_input float_of_str data) as [rest|];
      try discriminate; cbn [Py.bind] in H; injection H as <-;
      cbn [lookup]; (destruct (String.eqb k k'); [|now apply IH]).
    + left. exists x. auto.
    + right. auto.
Qed.

Lemma float_of_float x : float float_of_str (VNum (Config.Float x)) = Converted x.
Proof. reflexivity. Qed.

Lemma field_ok_sanitize data sanitized field :
  sanitize_input float_of_str data = Some sanitized ->
  (field_ok float_of_str sanitized field <-> field_ok float_of_str data field).
Proof.
  intros Hs. pose proof (sanitize_lookup data sanitized field Hs) as Hl.
  unfold field_ok. split.
  - intros (v & x & lo & hi & Hv & Hx & Hr & Hin).
    destruct (lookup data field) as [v0|]; [|congruence].
    destruct Hl as [(x0 & Hc & Hl) | [Hrej Hl]];
      rewrite Hl in Hv; injection Hv as <-.
    + simpl in Hx. injection Hx as <-. exists v0, x0, lo, hi. auto.
    + congruence.
  - intros (v & x & lo & hi & Hv & Hx & Hr & Hin). rewrite Hv in Hl.
    destruct Hl as [(x0 & Hc & Hl) | [Hrej Hl]]; [|congruence].
    rewrite Hx in Hc. injection Hc as <-.
    exists (VNum (Config.Float x)), x, lo, hi. auto.
Qed.

Lemma sanitize_no_huge data sanitized :
  sanitize_input float_of_str data = Some sanitized ->
  Forall (fun v => ~ huge_int v) (map snd data)
  /\ Forall (fun v => ~ huge_int v) (map snd sanitized).
Proof.
  revert sanitized. induction data as [|[k v] data IH]; intros sanitized H.
  - injection H as <-. split; constructor.
  - cbn [sanitize_input] in H.
    destruct (float float_of_str v) as [x | |] eqn:Ev; [| |discriminate];
      destruct (sanitize_input float_of_str data) as [rest|];
      try discriminate; cbn [Py.bind] in H; injection H as <-;
      destruct (IH rest eq_refl) as [H1 H2]; simpl; split; constructor;
      try assumption; rewrite <- float_overflow_huge;
      (congruence || (simpl; congruence)).
Qed.

Lemma validate_without_huge data :
  Forall (fun v => ~ huge_int v) (map snd data) ->
  exists verdict message,
    validate_soil_climate_input float_of_str str_of_float data
    = Some (verdict, message) /\
    (verdict = true <-> Forall (field_ok float_of_str data) required_fields).
Proof.
  intros Hsmall. pose proof (validate_spec data) as H.
  destruct (validate_soil_climate_input float_of_str str_of_float data)
    as [[verdict message]|].
  - exists verdict, message. split; [reflexivity | apply H].
  - destruct H as (f & v & _ & Hl & Hh). exfalso.
    rewrite Forall_forall in Hsmall. apply (Hsmall v); [|assumption].
    eapply lookup_In, Hl.
Qed.

(** X15.  When [sanitize_input] returns (no int overflows), validating the
    sanitised mapping, as the routes do, gives the same verdict as
    validating the original; and in a sanitised mapping that is accepted
    every required field holds a float within its range. *)
Theorem sanitize_keeps_verdict data sanitized
  (Hsanitized : sanitize_input float_of_str data = Some sanitized) :
  exists verdict message message',
    validate_soil_climate_input float_of_str str_of_float data
    = Some (verdict, message) /\
    validate_soil_climate_input float_of_str str_of_float sanitized
    = Some (verdict, message') /\
    (verdict = false
     \/ Forall
          (fun field =>
             exists x lo hi,
               lookup sanitized field = Some (VNum (Config.Float x)) /\
               lookup Config.FEATURE_RANGES field = Some (lo, hi) /\
               Config.to_Q lo <= x <= Config.to_Q hi)
          required_fields).
Proof.
  destruct (sanitize_no_huge _ _ Hsanitized) as [Hd Hs].
  destruct (validate_without_huge data Hd) as (v1 & m1 & H1 & Hok1).
  destruct (validate_without_huge sanitized Hs) as (v2 & m2 & H2 & Hok2).
  assert (Hsame : v1 = v2).
  { assert (Hiff : v1 = true <-> v2 = true).
    { rewrite Hok1, Hok2. split; intros H;
        (eapply Forall_impl; [|exact H]); intros f Hf;
        now apply (field_ok_sanitize data sanitized f Hsanitized). }
    destruct v1, v2; try reflexivity.
    - symmetry. now apply Hiff.
    - now apply Hiff. }
  subst v2. exists v1, m1, m2. split; [exact H1|]. split; [exact H2|].
  destruct v1; [right | now left].
  assert (Hall : Forall (field_ok float_of_str data) required_fields)
    by now apply Hok1.
  eapply Forall_impl; [|exact Hall]. intros f (v & x & lo & hi & A & B & C & D).
  exists x, lo, hi.
  pose proof (sanitize_lookup data sanitized f Hsanitized) as Hl.
  rewrite A in Hl. destruct Hl as [(x0 & Hc & Hl) | [Hrej _]]; [|congruence].
  rewrite B in Hc. injection Hc as <-. auto.
Qed.

(** X16.  [sanitize_input] raises exactly when some value is an int beyond the
    range of a double.  Otherwise it keeps the keys and their order, leaves
    every value either a float or something float() rejects, and sanitising
    its result again changes nothing. *)
Theorem sanitize_idempotent data :
  match sanitize_input float_of_str data with
  | None => Exists huge_int (map snd data)
  | Some sanitized =>
      Forall (fun v => ~ huge_int v) (map snd data) /\
      map fst sanitized = map fst data /\
      Forall
        (fun item =>
           float float_of_str (snd item) = Rejected
           \/ exists x, snd item = VNum (Config.Float x))
        sanitized /\
      sanitize_input float_of_str sanitized = Some sanitized
  end.
Proof.
  induction data as [|[k v] data IH]; cbn [sanitize_input].
  - repeat split; constructor.
  - destruct (float float_of_str v) as [x | |] eqn:Ev.
    + destruct (sanitize_input float_of_str data) as [rest|]; cbn [Py.bind].
      * destruct IH as (Hs & Hk & Hv & Hi).
        split; [simpl; constructor; [|assumption];
                rewrite <- float_overflow_huge; congruence|].
        split; [simpl; now f_equal|].
        split; [constructor; [right; eexists; reflexivity | assumption]|].
        cbn [sanitize_input float]. now rewrite Hi.
      * simpl. now apply Exists_cons_tl.
    + destruct (sanitize_input float_of_str data) as [rest|]; cbn [Py.bind].
      * destruct IH as (Hs & Hk & Hv & Hi).
        split; [simpl; constructor; [|assumption];
                rewrite <- float_overflow_huge; congruence|].
        split; [simpl; now f_equal|].
        split; [constructor; [now left | assumption]|].
        cbn [sanitize_input]. now rewrite Ev, Hi.
      * simpl. now apply Exists_cons_tl.
    + simpl. apply Exists_cons_hd. now apply float_overflow_huge.
Qed.

End Validation.

Lemma sanitize_keeps_verdict_witness :
  exists verdict message message',
    Validators.validate_soil_climate_input (fun _ => None)
      (Py.format_fixed 1)
      [("N", Validators.VNum (Config.Int 90)); ("P", Validators.VStr "many")]
    = Some (verdict, message) /\
    Validators.validate_soil_climate_input (fun _ => None)
      (Py.format_fixed 1)
      [("N", Validators.VNum (Config.Float 90)); ("P", Validators.VStr "many")]
    = Some (verdict, message') /\
    (verdict = false
     \/ Forall
          (fun field =>
             exists x lo hi,
               Validators.lookup
                 [("N", Validators.VNum (Config.Float 90));
                  ("P", Validators.VStr "many")] field
               = Some (Validators.VNum (Config.Float x)) /\
               Validators.lookup Config.FEATURE_RANGES field = Some (lo, hi) /\
               Config.to_Q lo <= x <= Config.to_Q hi)
          Validators.required_fields).
Proof.
  apply (sanitize_keeps_verdict (fun _ => None) (Py.format_fixed 1)
           [("N", Validators.VNum (Config.Int 90));
            ("P", Validators.VStr "many")]).
  reflexivity.
Defined.

(** X17.  [validate_crop_name] accepts exactly the non-empty names that occur,
    with the same letter case, in the list of valid crops; the message is
    empty exactly on acceptance. *)
Theorem crop_name_accepted_iff_listed crop valid_crops :
  (fst (Validators.validate_crop_name crop valid_crops) = true
   <-> crop <> EmptyString /\ In crop valid_crops) /\
  (fst (Validators.validate_crop_name crop valid_crops) = true
   <-> snd (Validators.validate_crop_name crop valid_crops) = EmptyString).
Proof.
  unfold Validators.validate_crop_name.
  destruct crop as [|c crop']; cbn [Helpers.truthy negb].
  - cbn [fst snd]. split; split; try discriminate.
    intros [H _]. now contradiction H.
  - destruct (existsb (String.eqb (String c crop')) valid_crops) eqn:E;
      cbn [negb fst snd].
    + apply existsb_exists in E as (y & Hy & Heq).
      apply String.eqb_eq in Heq. subst y.
      split; split; auto. intros _. split; [discriminate | assumption].
    + split; split; try discriminate.
      intros [_ Hin]. exfalso.
      assert (existsb (String.eqb (String c crop')) valid_crops = true).
      { apply existsb_exists. exists (String c crop'). split; [assumption|].
        apply String.eqb_refl. }
      congruence.
Qed.

(** ** Importance chart and prediction service *)

Section Chart.

Import ExplainerService.

Lemma insert_desc_filter w x s :
  filter (fun item => Qeq_bool (snd item) w) (Helpers.insert_desc x s)
  = filter (fun item => Qeq_bool (snd item) w) (x :: s).
Proof.
  induction s as [|y s IH]; [reflexivity|].
  cbn [Helpers.insert_desc].
  destruct (Qltb_spec (snd x) (snd y)) as [Hlt | Hge]; [|reflexivity].
  cbn [filter] in *. rewrite IH.
  destruct (Qeq_bool (snd x) w) eqn:Ex; [|reflexivity].
  destruct (Qeq_bool (snd y) w) eqn:Ey; [|reflexivity].
  apply Qeq_bool_iff in Ex, Ey. lra.
Qed.

Lemma sorted_by_importance_stable w items :
  filter (fun item => Qeq_bool (snd item) w)
    (Helpers.sorted_by_importance items)
  = filter (fun item => Qeq_bool (snd item) w) items.
Proof.
  induction items as [|x items IH]; [reflexivity|].
  cbn [Helpers.sorted_by_importance fold_right].
  rewrite insert_desc_filter. cbn [filter].
  fold (Helpers.sorted_by_importance items). now rewrite IH.
Qed.

Lemma chart_items feature_importance :
  map (fun r => (feature r, importance r))
    (_prepare_importance_chart feature_importance)
  = Helpers.sorted_by_importance feature_importance.
Proof.
  unfold _prepare_importance_chart. rewrite map_map.
  rewrite <- (map_id (Helpers.sorted_by_importance feature_importance)) at 2.
  apply map_ext. now intros [f i].
Qed.

(** X18.  The importance chart has one row per entry of the mapping, in
    non-increasing order of importance, and entries of equal importance
    keep the order they have in the mapping. *)
Theorem importance_chart_ranked feature_importance :
  let rows :=
    map (fun r => (feature r, importance r))
      (_prepare_importance_chart feature_importance) in
  Permutation rows feature_importance /\
  Spec.importance_descending rows /\
  List.length (_prepare_importance_chart feature_importance)
  = List.length feature_importance /\
  forall w,
    filter (fun item => Qeq_bool (snd item) w) rows
    = filter (fun item => Qeq_bool (snd item) w) feature_importance.
Proof.
  intros rows. unfold rows. rewrite chart_items.
  split; [apply sorted_by_importance_perm|].
  split; [apply sorted_by_importance_sorted|].
  split.
  - rewrite <- (length_map (fun r => (feature r, importance r))), chart_items.
    apply Permutation_length, sorted_by_importance_perm.
  - intros w. apply sorted_by_importance_stable.
Qed.

(** X19.  The narrative explanation speaks about the first three rows of the
    importance chart, in the chart's order. *)
Theorem explanation_follows_chart features crop feature_importance :
  Helpers.generate_human_readable_explanation features crop feature_importance
  = Spec.narrative features crop
      (map (fun r => (feature r, importance r))
         (firstn 3 (_prepare_importance_chart feature_importance))).
Proof.
  rewrite explanation_of_selection, <- firstn_map, chart_items. reflexivity.
Qed.

End Chart.

Section Prediction.

Import MLService.

(** X20.  [predict_top_crops] raises exactly when one of the seven features is
    missing from the mapping (KeyError), provided the classifier returns one
    probability per class; extra keys are ignored. *)
Theorem predict_raises_iff_feature_missing (self : t) (features : Py.dict Q)
    (n : Z)
    (Hmodel : forall sample,
        List.length (predict_proba self sample) = List.length (classes_ self)) :
  predict_top_crops self features n = None
  <-> exists field,
        In field Validators.required_fields
        /\ Py.dict_mem features field = false.
Proof.
  unfold predict_top_crops, Validators.required_fields. split.
  - intros H.
    repeat match type of H with
           | Py.bind (Validators.lookup features ?k) _ = None =>
               destruct (Validators.lookup features k) eqn:?;
               [cbn [Py.bind] in H
               | exists k; split;
                 [simpl; repeat (first [left; reflexivity | right])
                 | now apply lookup_not_mem]]
           end.
    cbv zeta in H.
    rewrite get_top_n_predictions_total in H by (symmetry; apply Hmodel).
    discriminate.
  - intros (field & Hin & Hmem). apply lookup_not_mem in Hmem.
    simpl in Hin.
    repeat match goal with
           | |- Py.bind (Validators.lookup features ?k) _ = None =>
               destruct (Validators.lookup features k) eqn:?;
               [cbn [Py.bind] | reflexivity]
           end.
    exfalso. intuition (subst; congruence).
Qed.

Lemma predict_raises_iff_feature_missing_witness :
  predict_top_crops
    (mkService (fun _ => [1 # 4; 3 # 4]) ["maize"; "rice"] ["N"; "P"]
       [1 # 2; 1 # 2])
    [("N", 90); ("P", 42)] 3 = None
  <-> exists field,
        In field Validators.required_fields
        /\ Py.dict_mem [("N", 90); ("P", 42)] field = false.
Proof.
  apply (predict_raises_iff_feature_missing
           (mkService (fun _ => [1 # 4; 3 # 4]) ["maize"; "rice"] ["N"; "P"]
              [1 # 2; 1 # 2])).
  reflexivity.
Defined.

Lemma dict_set_fresh {V : Type} (d : Py.dict V) k v :
  ~ In k (map fst d) -> dict_set d k v = (d ++ [(k, v)])%list.
Proof.
  induction d as [|[k' v'] d IH]; simpl; intros H; [reflexivity|].
  destruct (String.eqb_spec k k') as [-> | _]; [exfalso; auto|].
  rewrite IH; auto.
Qed.

Lemma build_dict_distinct {V : Type} (items acc : Py.dict V) :
  NoDup (map fst (acc ++ items)%list) ->
  fold_left (fun d item => dict_set d (fst item) (snd item)) items acc
  = (acc ++ items)%list.
Proof.
  revert acc. induction items as [|[k v] items IH]; intros acc H; simpl.
  - now rewrite app_nil_r.
  - rewrite dict_set_fresh.
    + rewrite IH; rewrite <- app_assoc; [reflexivity | exact H].
    + rewrite map_app in H. simpl in H.
      apply NoDup_remove_2 in H. intros Hin. apply H.
      apply in_or_app. now left.
Qed.

(** X21.  With distinct feature names and one score per name, the importance
    mapping lists the features in the model's order, each with its own
    score, and looking a name up gives that score. *)
Theorem feature_importance_pairs_names_with_scores (self : t)
    (Hdistinct : NoDup (feature_names self))
    (Hlen : List.length (feature_importances_ self)
            = List.length (feature_names self)) :
  get_feature_importance self
  = combine (feature_names self) (feature_importances_ self)
  /\ map fst (get_feature_importance self) = feature_names self
  /\ forall i name score,
       nth_error (feature_names self) i = Some name ->
       nth_error (feature_importances_ self) i = Some score ->
       Validators.lookup (get_feature_importance self) name = Some score.
Proof.
  assert (Hkeys : map fst (combine (feature_names self)
                             (feature_importances_ self))
                  = feature_names self).
  { generalize dependent (feature_importances_ self).
    induction (feature_names self) as [|a l IH]; intros [|s ss] Hl;
      simpl in *; try discriminate; [reflexivity|].
    f_equal. apply IH; [now inversion Hdistinct | lia]. }
  assert (Heq : get_feature_importance self
                = combine (feature_names self) (feature_importances_ self)).
  { unfold get_feature_importance. rewrite build_dict_distinct; [reflexivity|].
    simpl. now rewrite Hkeys. }
  split; [exact Heq|]. split; [now rewrite Heq|].
  rewrite Heq. clear Heq Hkeys Hlen.
  generalize dependent (feature_importances_ self).
  induction (feature_names self) as [|a l IH]; intros scores i name score Hn Hs.
  - destruct i; discriminate.
  - destruct scores as [|s ss]; [destruct i; discriminate|].
    inversion Hdistinct as [|? ? Hnotin Hnd]; subst.
    destruct i as [|i]; simpl in *.
    + injection Hn as <-. injection Hs as <-. now rewrite String.eqb_refl.
    + destruct (String.eqb_spec name a) as [-> | _].
      * exfalso. apply Hnotin. eapply nth_error_In; eauto.
      * eapply IH; eauto.
Qed.

Lemma feature_importance_pairs_names_with_scores_witness :
  get_feature_importance
    (mkService (fun _ => []) [] ["N"; "P"; "K"] [1 # 2; 3 # 10; 1 # 5])
  = [("N", 1 # 2); ("P", 3 # 10); ("K", 1 # 5)].
Proof.
  apply (feature_importance_pairs_names_with_scores
           (mkService (fun _ => []) [] ["N"; "P"; "K"] [1 # 2; 3 # 10; 1 # 5])).
  - repeat constructor; simpl; intuition discriminate.
  - reflexivity.
Defined.

End Prediction.

(** ** Parsing of the advisory text *)

Section ParseResponse.

Import AIAgronomist.

Lemma list_ascii_app s t :
  list_ascii_of_string (s ++ t)
  = (list_ascii_of_string s ++ list_ascii_of_string t)%list.
Proof.
  induction s as [|c s IH]; simpl; [reflexivity | now rewrite IH].
Qed.

Lemma split_ws_words s :
  forall word,
    Forall (fun c => is_space c = false) (list_ascii_of_string word) ->
    Forall is_word (split_ws word s).
Proof.
  induction s as [|c s IH]; intros word Hword; simpl.
  - destruct (Helpers.truthy word) eqn:E; repeat constructor; assumption.
  - destruct (is_space c) eqn:Ec.
    + destruct (Helpers.truthy word) eqn:E.
      * constructor; [split; assumption|]. apply IH. constructor.
      * apply IH. constructor.
    + apply IH. rewrite list_ascii_app. apply Forall_app. split; [assumption|].
      simpl. repeat constructor. assumption.
Qed.

Lemma clean_single_spaced s : single_spaced (clean s).
Proof.
  exists (split (strip s)). split; [reflexivity|].
  apply split_ws_words. constructor.
Qed.

(** X22.  Every section of the parsed advice is in normal form: a (possibly
    empty) sequence of whitespace-free words separated by single spaces,
    so without leading, trailing or repeated blanks, tabs or line breaks;
    the full text is kept as received. *)
Theorem parsed_sections_single_spaced response_text :
  let parsed := _parse_response response_text in
  single_spaced (suitability parsed) /\
  single_spaced (sowing_season parsed) /\
  single_spaced (fertilizer parsed) /\
  single_spaced (disease_risks parsed) /\
  single_spaced (yield_tips parsed) /\
  full_text parsed = response_text.
Proof.
  intros parsed. unfold parsed, _parse_response.
  cbn [suitability sowing_season fertilizer disease_risks yield_tips full_text].
  repeat split; try apply clean_single_spaced.
  (* full_text is never assigned *)
  assert (Hstep : forall st line,
            full_text (sections (step st line)) = full_text (sections st)).
  { intros st line. unfold step, start_section, save_section.
    repeat match goal with
           | |- context [if ?b then _ else _] => destruct b
           | |- context [match current_section st with _ => _ end] =>
               destruct (current_section st) as [[]|]
           | |- context [match section_content st with _ => _ end] =>
               destruct (section_content st)
           end; reflexivity. }
  assert (Hfold : forall lines st,
            full_text (sections (fold_left step lines st))
            = full_text (sections st)).
  { induction lines as [|l lines IH]; intros st; simpl; [reflexivity|].
    now rewrite IH, Hstep. }
  unfold save_section.
  match goal with
  | |- context [fold_left step ?ls ?st0] =>
      specialize (Hfold ls st0);
      destruct (current_section (fold_left step ls st0)) as [[]|];
      destruct (section_content (fold_left step ls st0));
      cbn [set full_text] in *; try exact Hfold
  end.
Qed.






End ParseResponse.

Section ParsePrefix.

Import AIAgronomist.










End ParsePrefix.

(** ** Worked examples *)

Section Examples.

Import SustainabilityService.

Example format_fixed_examples :
  Py.format_fixed 0 392 = "392" /\
  Py.format_fixed 1 (13 # 2) = "6.5" /\
  Py.format_fixed 0 (5 # 2) = "2" /\
  Py.format_fixed 0 (7 # 2) = "4" /\
  Py.format_fixed 1 (- (1 # 25)) = "-0.0" /\
  Py.format_fixed 1 (2049 # 20) = "102.4".
Proof. vm_compute. repeat split. Qed.

Example lower_example : Py.lower "Rice" = "rice".
Proof. reflexivity. Qed.

(** N=90, P=42, K=43, pH=6.5, rainfall=202, crop rice: deficit 392, medium
    water risk, all three percentages capped at 100, severity severe, three
    rotation suggestions, score 100 - 30 - 10 + 5 = 65. *)
Example rice_end_to_end :
  exists r,
    analyze_soil_impact "rice"
      [("N", 90); ("P", 42); ("K", 43); ("pH", 13 # 2); ("rainfall", 202)] 4
    = Some r /\
    deficit (water_risk r) = 392 /\
    risk_level (water_risk r) = "medium" /\
    message (water_risk r) = "Moderate irrigation required (392mm deficit)" /\
    depletion_percent (nutrient_depletion r) = mkNPK 100 100 100 /\
    severity (nutrient_depletion r) = "severe" /\
    List.length (suggestions (crop_rotation r)) = 3%nat /\
    sustainability_score r = 65%Z.
Proof.
  eexists. split; [vm_compute; reflexivity|]. repeat split.
Qed.

(** pH 7.0, low water risk, no depletion: 100 - 0 - 0 + 5 = 105, clamped
    to 100. *)
Example score_clamped_at_100 :
  _calculate_sustainability_score
    (mkDepletion (mkNPK 0 0 0) (mkNPK 0 0 0) (mkNPK 0 0 0) "low")
    (mkWaterRisk 600 600 0 0 "low" "Water availability is adequate")
    [("pH", 7)] = 100%Z.
Proof. reflexivity. Qed.

Example explanation_example :
  Helpers.generate_human_readable_explanation
    (Helpers.create_feature_dict 90 42 43 (13 # 2) (209 # 10) 82 202) "rice"
    [("N", 1 # 10); ("rainfall", 3 # 10); ("humidity", 1 # 5); ("K", 1 # 5)]
  = "High rainfall (202mm) provides excellent moisture for rice. High humidity (82%) creates ideal conditions for rice. High potassium (43) enhances rice quality and disease resistance.".
Proof. vm_compute. reflexivity. Qed.

Example validate_reports_missing_fields float_of_str str_of_float :
  Validators.validate_soil_climate_input float_of_str str_of_float
    [("N", Validators.VNum (Config.Int 90)); ("pH", Validators.VNone)]
  = Some (false,
          "Missing required fields: P, K, temperature, humidity, rainfall").
Proof. reflexivity. Qed.

Example validate_rejects_non_number float_of_str str_of_float :
  Validators.validate_soil_climate_input float_of_str str_of_float
    [("N", Validators.VNum (Config.Int 90)); ("P", Validators.VNone);
     ("K", Validators.VNum (Config.Int 43));
     ("pH", Validators.VNum (Config.Int 20));
     ("temperature", Validators.VNum (Config.Int 20));
     ("humidity", Validators.VNum (Config.Int 82));
     ("rainfall", Validators.VNum (Config.Int 202))]
  = Some (false, "Field 'P' must be a number, got: None").
Proof. reflexivity. Qed.

Example parse_response_example :
  let nl := String "010" EmptyString in
  AIAgronomist._parse_response
    ("Intro text" ++ nl
     ++ "1. **Suitability Assessment**: Rice fits   well." ++ nl
     ++ "It likes water." ++ nl ++ nl
     ++ "## 2. Best Sowing Season" ++ nl
     ++ "* June  to July" ++ nl
     ++ "# note" ++ nl
     ++ "5. **Yield Optimization Tips**:" ++ nl
     ++ "1. Use good seed" ++ nl
     ++ " - weed early ")
  = AIAgronomist.mkSections
      "Rice fits well. It likes water." "June to July" EmptyString EmptyString
      "Use good seed weed early"
      ("Intro text" ++ nl
       ++ "1. **Suitability Assessment**: Rice fits   well." ++ nl
       ++ "It likes water." ++ nl ++ nl
       ++ "## 2. Best Sowing Season" ++ nl
       ++ "* June  to July" ++ nl
       ++ "# note" ++ nl
       ++ "5. **Yield Optimization Tips**:" ++ nl
       ++ "1. Use good seed" ++ nl
       ++ " - weed early ").
Proof. vm_compute. reflexivity. Qed.

End Examples.
